(** * scormxblock: the SCORM runtime handlers and manifest detection

    A shallow embedding of [src/scormxblock/scormxblock.py]: the runtime
    handlers [scorm_get_value] and [scorm_set_value], the grade policy
    [publish_grade], [get_completion_status], and the manifest reader
    [set_fields_xblock], together with the Python builtins they call
    ([float], [round], [re.match], [os.path.join], [Element.find]).

    Scores are binary64 floats (the kernel's primitive floats), statuses are
    Python strings or [None], the free-form SCORM data is a finite map. *)

From Stdlib Require Import ZArith String Ascii List Bool Lia.
From Stdlib Require Import Floats Uint63.
From stdpp Require Import base option gmap strings.
Import ListNotations.

Local Open Scope string_scope.
Local Open Scope Z_scope.

(* ===================================================================== *)
(** ** Python builtins                                                    *)
(* ===================================================================== *)

(** A Python [str] is a [string]: a sequence of characters, each an [ascii]
    read as a code point below 256. *)

Module Py.

(** Exceptions the modelled code can raise. *)
Inductive exn : Set :=
| ValueError      (* float() of a string that is not a number;
                     xml.etree on a multi-byte encoding *)
| TypeError       (* re.match on None *)
| ParseError      (* xml.etree: the document is not well formed *)
| LookupError.    (* xml.etree: the declared encoding is unknown *)

(** *** Correct rounding of a fraction to binary64

    [nearest_double p q] is the double nearest to [p / q] (for [0 <= p],
    [0 < q]), ties to even, with gradual underflow and overflow to
    infinity.  Both [float(str)] and [round(x, n)] are correctly rounded in
    CPython (they go through [_Py_dg_strtod]). *)

Definition round_half_even (num den : Z) : Z :=
  let m := num / den in
  let r := num mod den in
  match 2 * r ?= den with
  | Lt => m
  | Gt => m + 1
  | Eq => if Z.even m then m else m + 1
  end.

Definition floor_log2_frac (p q : Z) : Z :=
  let d := Z.log2 p - Z.log2 q in
  let ge := if 0 <=? d then q * 2 ^ d <=? p else q <=? p * 2 ^ (- d) in
  if ge then d else d - 1.

Definition nearest_double (p q : Z) : float :=
  if p =? 0 then 0%float
  else
    let e := Z.max (floor_log2_frac p q - 52) (-1074) in
    let m := if 0 <=? e then round_half_even p (q * 2 ^ e)
             else round_half_even (p * 2 ^ (- e)) q in
    if 2 ^ 1024 <=? m * 2 ^ (Z.max e 0) then infinity
    else Z.ldexp (of_uint63 (Uint63.of_Z m)) e.

(** *** [float(s)] on a string

    Grammar (CPython's [float_from_string]): surrounding whitespace is
    dropped (tab to carriage return, space, and the two non-ASCII blanks
    below 256, NEL and the no-break space); an optional sign; then [inf],
    [infinity] or [nan] in any case, or a decimal number: digit parts
    (single underscores allowed between digits) around an optional point,
    and an optional exponent.  Anything else raises [ValueError]. *)

Definition is_space (c : ascii) : bool :=
  let n := Z.of_nat (nat_of_ascii c) in
  ((9 <=? n) && (n <=? 13)) || (n =? 32) || (n =? 133) || (n =? 160).

Fixpoint lstrip (l : list ascii) : list ascii :=
  match l with
  | c :: l' => if is_space c then lstrip l' else l
  | [] => []
  end.

Definition strip (l : list ascii) : list ascii :=
  rev (lstrip (rev (lstrip l))).

Definition digit_val (c : ascii) : option Z :=
  let n := Z.of_nat (nat_of_ascii c) in
  if (48 <=? n) && (n <=? 57) then Some (n - 48) else None.

Definition lower (c : ascii) : ascii :=
  let n := nat_of_ascii c in
  if ((65 <=? n) && (n <=? 90))%nat then ascii_of_nat (n + 32) else c.

(** After a first digit: more digits, each optionally preceded by one
    underscore.  Returns the number read so far, how many digits were read,
    and the unread rest. *)
Fixpoint digits_more (l : list ascii) (acc : Z) (n : Z) : Z * Z * list ascii :=
  match l with
  | c :: l' =>
      match digit_val c with
      | Some d => digits_more l' (10 * acc + d) (n + 1)
      | None =>
          if Ascii.eqb c "_" then
            match l' with
            | c2 :: l'' =>
                match digit_val c2 with
                | Some d => digits_more l'' (10 * acc + d) (n + 1)
                | None => (acc, n, l)
                end
            | [] => (acc, n, l)
            end
          else (acc, n, l)
      end
  | [] => (acc, n, [])
  end.

(** [digitpart acc l]: a non-empty digit part continuing the number [acc]. *)
Definition digitpart (acc : Z) (l : list ascii) : option (Z * Z * list ascii) :=
  match l with
  | c :: l' =>
      match digit_val c with
      | Some d => Some (digits_more l' (10 * acc + d) 1)
      | None => None
      end
  | [] => None
  end.

Definition sign (l : list ascii) : bool * list ascii :=
  match l with
  | c :: l' =>
      if Ascii.eqb c "-" then (true, l')
      else if Ascii.eqb c "+" then (false, l')
      else (false, l)
  | [] => (false, [])
  end.

(** [number l]: the mantissa as an integer, the count of digits after the
    point, and the rest. *)
Definition number (l : list ascii) : option (Z * Z * list ascii) :=
  match l with
  | c :: l' =>
      if Ascii.eqb c "."
      then (* "." digitpart *)
        digitpart 0 l'
      else
        match digitpart 0 l with
        | Some (i, _, rest) =>
            match rest with
            | c2 :: rest' =>
                if Ascii.eqb c2 "."
                then match digitpart i rest' with
                     | Some r => Some r
                     | None => Some (i, 0, rest')      (* digitpart "." *)
                     end
                else Some (i, 0, rest)
            | [] => Some (i, 0, [])
            end
        | None => None
        end
  | [] => None
  end.

(** The optional exponent; [None] when what follows is not one. *)
Definition exponent (l : list ascii) : option Z :=
  match l with
  | [] => Some 0
  | c :: l' =>
      if Ascii.eqb (lower c) "e" then
        let '(neg, l'') := sign l' in
        match digitpart 0 l'' with
        | Some (x, _, []) => Some (if neg then - x else x)
        | _ => None
        end
      else None
  end.

Definition float_of_decimal (mant frac_digits exp10 : Z) : float :=
  let e := exp10 - frac_digits in
  if 0 <=? e then nearest_double (mant * 10 ^ e) 1
  else nearest_double mant (10 ^ (- e)).

Definition float_of_string (s : string) : option float :=
  let l := strip (list_ascii_of_string s) in
  let '(neg, body) := sign l in
  let signed (f : float) := if neg then (- f)%float else f in
  let word := string_of_list_ascii (map lower body) in
  if String.eqb word "inf" || String.eqb word "infinity" then Some (signed infinity)
  else if String.eqb word "nan" then Some nan
  else
    match number body with
    | Some (mant, fd, rest) =>
        match exponent rest with
        | Some x => Some (signed (float_of_decimal mant fd x))
        | None => None
        end
    | None => None
    end.

(** *** [round(x, 2)]

    CPython rounds the exact binary value of [x] to two decimals, half to
    even, and returns the double nearest to that decimal.  Zeros, infinities
    and NaN round to themselves. *)
Definition round2 (x : float) : float :=
  match Prim2SF x with
  | S754_finite s m e =>
      let n := if 0 <=? e then Z.pos m * 2 ^ e * 100
               else round_half_even (Z.pos m * 100) (2 ^ (- e)) in
      let r := nearest_double n 100 in
      if s then (- r)%float else r
  | _ => x
  end.

(** *** [re.match("^1.2$", s)]

    The pattern is an unescaped regular expression: [.] stands for any one
    character other than a newline, and [$] also matches just before a
    final newline. *)
Definition newline : ascii := ascii_of_nat 10.

Definition re_match_1_2 (s : string) : bool :=
  match list_ascii_of_string s with
  | [c1; c2; c3] =>
      Ascii.eqb c1 "1" && negb (Ascii.eqb c2 newline) && Ascii.eqb c3 "2"
  | [c1; c2; c3; c4] =>
      Ascii.eqb c1 "1" && negb (Ascii.eqb c2 newline) && Ascii.eqb c3 "2"
      && Ascii.eqb c4 newline
  | _ => false
  end.

(** *** [os.path.join(a, b)] (posixpath, two components) *)
Definition starts_with_slash (s : string) : bool :=
  match s with
  | String c _ => Ascii.eqb c "/"
  | EmptyString => false
  end.

Definition ends_with_slash (s : string) : bool :=
  match rev (list_ascii_of_string s) with
  | c :: _ => Ascii.eqb c "/"
  | [] => false
  end.

Definition path_join (a b : string) : string :=
  if starts_with_slash b then b
  else if String.eqb a "" || ends_with_slash a then a +:+ b
  else a +:+ "/" +:+ b.

(** [x in [s1; ...; sn]] and [x == s] for a string [x], and for a value
    that is a string or [None]. *)
Definition elem (s : string) (l : list string) : bool :=
  existsb (String.eqb s) l.

Definition str_in (v : option string) (l : list string) : bool :=
  match v with
  | Some s => elem s l
  | None => false
  end.

Definition str_eq (v : option string) (s : string) : bool :=
  match v with
  | Some x => String.eqb x s
  | None => false
  end.

(** [str(v)] as [format] writes it. *)
Definition str (v : option string) : string :=
  match v with
  | Some s => s
  | None => "None"
  end.

End Py.

(* ===================================================================== *)
(** ** xml.etree.ElementTree: the part the manifest reader uses           *)
(* ===================================================================== *)

Module ET.

#[local] Unset Elimination Schemes.
(** An element as ElementTree holds it: the tag is the qualified name
    ([{uri}local] under a namespace), [text] is [None] for an element with
    no character data. *)
Inductive Element : Type :=
| Elem (tag : string) (attrib : list (string * string))
       (text : option string) (children : list Element).
#[local] Set Elimination Schemes.

Definition tag (e : Element) : string := let 'Elem t _ _ _ := e in t.
Definition attrib (e : Element) : list (string * string) :=
  let 'Elem _ a _ _ := e in a.
Definition text (e : Element) : option string := let 'Elem _ _ t _ := e in t.
Definition children (e : Element) : list Element :=
  let 'Elem _ _ _ c := e in c.

(** [e.get(key)]: the attribute's value, [None] when the element has no
    such attribute. *)
Fixpoint assoc (key : string) (l : list (string * string)) : option string :=
  match l with
  | (k, v) :: l' => if String.eqb k key then Some v else assoc key l'
  | [] => None
  end.

Definition get (e : Element) (key : string) : option string :=
  assoc key (attrib e).

(** [s] ends with [suffix]. *)
Definition ends_with (suffix s : string) : bool :=
  let n := String.length suffix in
  (n <=? String.length s)%nat
  && String.eqb (substring (String.length s - n) n s) suffix.

(** A step [pattern] of a path selects the children with that tag; a step
    [{*}name] selects the children named [name] in any namespace or in
    none (ElementPath's [prepare_child] and [_prepare_tag]). *)
Definition selects (pattern t : string) : bool :=
  if String.prefix "{*}" pattern
  then
    let local := substring 3 (String.length pattern - 3) pattern in
    String.eqb t local || ends_with ("}" +:+ local) t
  else String.eqb t pattern.

Definition with_tag (t : string) (l : list Element) : list Element :=
  filter (fun c => selects t (tag c)) l.

(** [root.find("a/b")]: the first [b] child of an [a] child of [root], in
    document order; [None] when there is none. *)
Definition find2 (root : Element) (a b : string) : option Element :=
  head (flat_map (fun c => with_tag b (children c))
                 (with_tag a (children root))).

(** ["{{{0}}}local".format(namespace)].  [find] reads the braces as one
    qualified name for every namespace uri without a closing brace; the
    uri [*] makes it the wildcard step above. *)
Definition qname (namespace local : string) : string :=
  "{" +:+ namespace +:+ "}" +:+ local.

(** Why [ET.parse] fails on a file it could open, with the exception it
    raises; none of them is an [IOError]. *)
Inductive parse_failure : Set :=
| NotWellFormed        (* ParseError *)
| UnknownEncoding      (* LookupError *)
| MultiByteEncoding.   (* ValueError *)

Definition raised_by (why : parse_failure) : Py.exn :=
  match why with
  | NotWellFormed => Py.ParseError
  | UnknownEncoding => Py.LookupError
  | MultiByteEncoding => Py.ValueError
  end.

(** What reading [imsmanifest.xml] can give: a file that cannot be opened
    or read ([IOError]), a file [ET.parse] fails on, or a document: its
    namespace declarations [(prefix, uri)] in document order (the
    [start-ns] events of [iterparse]) and its root element. *)
Inductive manifest_file : Type :=
| NoFile
| Unparsable (why : parse_failure)
| Document (start_ns : list (string * string)) (root : Element).

End ET.

(* ===================================================================== *)
(** ** The block                                                          *)
(* ===================================================================== *)

Module Field.

(** Assigning to a [String] field stores the value with the control
    characters that XML forbids removed ([String._sanitize]: the code
    points 0-8, 11, 12 and 14-31 among those below 256); [None] is stored
    as it is.  A [Float] or [Boolean] field and a [Dict] stores what it is
    given. *)
Definition forbidden (c : ascii) : bool :=
  let n := nat_of_ascii c in
  ((n <=? 8) || (n =? 11) || (n =? 12) || ((14 <=? n) && (n <=? 31)))%nat.

Fixpoint sanitize (s : string) : string :=
  match s with
  | EmptyString => EmptyString
  | String c s' =>
      if forbidden c then sanitize s' else String c (sanitize s')
  end.

Definition stored (v : option string) : option string :=
  option_map sanitize v.

End Field.

(** The two values [version_scorm] takes: the strings ["SCORM_12"] (the
    field default) and ["SCORM_2004"]. *)
Inductive scorm_version : Set := SCORM_12 | SCORM_2004.

Definition scorm_version_eqb (a b : scorm_version) : bool :=
  match a, b with
  | SCORM_12, SCORM_12 | SCORM_2004, SCORM_2004 => true
  | _, _ => false
  end.

Record Location : Set := { org : string; course : string; block_id : string }.

(** The fields of [ScormXBlock] the modelled methods read or write.  A
    [String] field holds a string or [None]; [lesson_score] and [weight] are
    floats ([lesson_score = 0] is the float zero). *)
Record ScormXBlock : Type := {
  location : Location;
  scorm_file : option string;
  path_index_page : option string;
  version_scorm : scorm_version;
  lesson_status : option string;
  success_status : option string;
  data_scorm : gmap string string;
  lesson_score : float;
  weight : float;
  has_score : bool
}.

(** Field defaults of a block that was never written. *)
Definition new_block (loc : Location) : ScormXBlock :=
  {| location := loc;
     scorm_file := None;
     path_index_page := None;
     version_scorm := SCORM_12;
     lesson_status := Some "not attempted";
     success_status := Some "unknown";
     data_scorm := ∅;
     lesson_score := 0%float;
     weight := 1%float;
     has_score := true |}.

Definition set_scorm_file (v : option string) (b : ScormXBlock) :=
  {| location := location b; scorm_file := v;
     path_index_page := path_index_page b; version_scorm := version_scorm b;
     lesson_status := lesson_status b; success_status := success_status b;
     data_scorm := data_scorm b; lesson_score := lesson_score b;
     weight := weight b; has_score := has_score b |}.

Definition set_path_index_page (v : option string) (b : ScormXBlock) :=
  {| location := location b; scorm_file := scorm_file b;
     path_index_page := v; version_scorm := version_scorm b;
     lesson_status := lesson_status b; success_status := success_status b;
     data_scorm := data_scorm b; lesson_score := lesson_score b;
     weight := weight b; has_score := has_score b |}.

Definition set_version_scorm (v : scorm_version) (b : ScormXBlock) :=
  {| location := location b; scorm_file := scorm_file b;
     path_index_page := path_index_page b; version_scorm := v;
     lesson_status := lesson_status b; success_status := success_status b;
     data_scorm := data_scorm b; lesson_score := lesson_score b;
     weight := weight b; has_score := has_score b |}.

Definition set_lesson_status (v : option string) (b : ScormXBlock) :=
  {| location := location b; scorm_file := scorm_file b;
     path_index_page := path_index_page b; version_scorm := version_scorm b;
     lesson_status := v; success_status := success_status b;
     data_scorm := data_scorm b; lesson_score := lesson_score b;
     weight := weight b; has_score := has_score b |}.

Definition set_success_status (v : option string) (b : ScormXBlock) :=
  {| location := location b; scorm_file := scorm_file b;
     path_index_page := path_index_page b; version_scorm := version_scorm b;
     lesson_status := lesson_status b; success_status := v;
     data_scorm := data_scorm b; lesson_score := lesson_score b;
     weight := weight b; has_score := has_score b |}.

Definition set_data_scorm (v : gmap string string) (b : ScormXBlock) :=
  {| location := location b; scorm_file := scorm_file b;
     path_index_page := path_index_page b; version_scorm := version_scorm b;
     lesson_status := lesson_status b; success_status := success_status b;
     data_scorm := v; lesson_score := lesson_score b;
     weight := weight b; has_score := has_score b |}.

Definition set_lesson_score (v : float) (b : ScormXBlock) :=
  {| location := location b; scorm_file := scorm_file b;
     path_index_page := path_index_page b; version_scorm := version_scorm b;
     lesson_status := lesson_status b; success_status := success_status b;
     data_scorm := data_scorm b; lesson_score := v;
     weight := weight b; has_score := has_score b |}.

Definition set_has_score (v : bool) (b : ScormXBlock) :=
  {| location := location b; scorm_file := scorm_file b;
     path_index_page := path_index_page b; version_scorm := version_scorm b;
     lesson_status := lesson_status b; success_status := success_status b;
     data_scorm := data_scorm b; lesson_score := lesson_score b;
     weight := weight b; has_score := v |}.

(** What the runtime receives through [runtime.publish] and
    [emit_completion]. *)
Inductive event : Set :=
| Grade (value max_value : float)
| Completion (value : float).

Definition is_grade (e : event) : bool :=
  match e with Grade _ _ => true | Completion _ => false end.

(** *** Methods as actions on the block

    A method runs on [self], may assign its fields, publishes events in
    order, and returns a value or raises; a raise keeps the fields as they
    were assigned up to it. *)
Inductive outcome (A : Type) : Type :=
| Returned (self : ScormXBlock) (published : list event) (result : A)
| Raised (e : Py.exn) (self : ScormXBlock) (published : list event).
Arguments Returned {A} self published result.
Arguments Raised {A} e self published.

Definition action (A : Type) : Type := ScormXBlock -> outcome A.

Definition ret {A} (a : A) : action A := fun self => Returned self [] a.

Definition bind {A B} (m : action A) (k : A -> action B) : action B :=
  fun self =>
    match m self with
    | Returned self1 ev1 a =>
        match k a self1 with
        | Returned self2 ev2 b => Returned self2 (ev1 ++ ev2) b
        | Raised e self2 ev2 => Raised e self2 (ev1 ++ ev2)
        end
    | Raised e self1 ev1 => Raised e self1 ev1
    end.

Definition raise {A} (e : Py.exn) : action A := fun self => Raised e self [].
Definition read {A} (f : ScormXBlock -> A) : action A :=
  fun self => Returned self [] (f self).
Definition assign (f : ScormXBlock -> ScormXBlock) : action unit :=
  fun self => Returned (f self) [] tt.
Definition publish (e : event) : action unit :=
  fun self => Returned self [e] tt.
Definition when (c : bool) (m : action unit) : action unit :=
  if c then m else ret tt.

#[global] Instance action_ret : MRet action := @ret.
#[global] Instance action_bind : MBind action := fun A B k m => bind m k.

(** The state, events and result of an outcome. *)
Definition self_of {A} (o : outcome A) : ScormXBlock :=
  match o with Returned s _ _ | Raised _ s _ => s end.
Definition published_of {A} (o : outcome A) : list event :=
  match o with Returned _ ev _ | Raised _ _ ev => ev end.
Definition result_of {A} (o : outcome A) : option A :=
  match o with Returned _ _ a => Some a | Raised _ _ _ => None end.

(* ===================================================================== *)
(** ** The methods                                                        *)
(* ===================================================================== *)

(** Platform settings the module reads at import. *)
Record Settings : Set := {
  MEDIA_URL : string;
  ENABLE_PUBLISH_FAILED_SCORM_SCORE : bool
}.

Definition SCORM_URL (settings : Settings) : string :=
  Py.path_join (MEDIA_URL settings) "scormxblockmedia".

(** The JSON body of a handler call, for the bodies the player sends: an
    object whose [name] is a string and whose [value], when the key is
    present, is a string.  Other bodies (not an object, a [name] that is
    not a string, a [value] that is null, a number, a list or an object)
    are not of this type. *)
Record json_data : Set := { name : string; value : option string }.

(** A value returned by [scorm_get_value]. *)
Inductive pyvalue : Set :=
| PyNone
| PyStr (s : string)
| PyFloat (f : float).

Definition of_str (v : option string) : pyvalue :=
  match v with
  | Some s => PyStr s
  | None => PyNone
  end.

(** The dictionary [scorm_set_value] returns: [lesson_score] is a key only
    on the scored paths. *)
Record context : Set := {
  result : string;
  ctx_lesson_score : option float;
  completion_status : option string
}.

Definition lesson_status_keys : list string :=
  ["cmi.core.lesson_status"; "cmi.completion_status"].
Definition raw_score_keys : list string :=
  ["cmi.core.score.raw"; "cmi.score.raw"].
Definition complete_values : list string := ["passed"; "failed"; "completed"].

Section Handlers.

Variable settings : Settings.

Definition scorm_get_value (data : json_data) (self : ScormXBlock) : pyvalue :=
  if Py.elem (name data) lesson_status_keys then of_str (lesson_status self)
  else if String.eqb (name data) "cmi.success_status"
  then of_str (success_status self)
  else if Py.elem (name data) raw_score_keys
  then PyFloat (lesson_score self * 100)%float
  else PyStr (default "" (data_scorm self !! name data)).

Definition grade_is_zeroed (self : ScormXBlock) : bool :=
  negb (ENABLE_PUBLISH_FAILED_SCORM_SCORE settings)
  && (Py.str_eq (lesson_status self) "failed"
      || (scorm_version_eqb (version_scorm self) SCORM_2004
          && Py.str_in (success_status self) ["failed"; "unknown"])).

Definition publish_grade : action unit :=
  self ← read id;
  if grade_is_zeroed self
  then publish (Grade 0 (weight self))
  else publish (Grade (lesson_score self) (weight self)).

Definition get_completion_status (self : ScormXBlock) : option string :=
  if scorm_version_eqb (version_scorm self) SCORM_2004
     && negb (Py.str_eq (success_status self) "unknown")
  then success_status self
  else lesson_status self.

Definition emit_completion (v : float) : action unit :=
  publish (Completion v).

(** [float(data.get("value", 0))] *)
Definition float_of_value (data : json_data) : action float :=
  match value data with
  | None => mret 0%float
  | Some s =>
      match Py.float_of_string s with
      | Some f => mret f
      | None => raise Py.ValueError
      end
  end.

(** The branches of [scorm_set_value]; each returns the [lesson_score] entry
    it adds to the context, if any. *)
Definition set_lesson_status_branch (data : json_data) : action (option float) :=
  assign (set_lesson_status (Field.stored (value data)));;
  self ← read id;
  if has_score self && Py.str_in (value data) ["completed"; "failed"; "passed"]
  then publish_grade;; s ← read lesson_score; mret (Some s)
  else mret None.

Definition set_success_status_branch (data : json_data) : action (option float) :=
  assign (set_success_status (Field.stored (value data)));;
  self ← read id;
  if has_score self
  then
    when (Py.str_eq (success_status self) "unknown")
         (assign (set_lesson_score 0%float));;
    publish_grade;;
    s ← read lesson_score; mret (Some s)
  else mret None.

Definition set_raw_score_branch (data : json_data) : action (option float) :=
  f ← float_of_value data;
  assign (set_lesson_score (Py.round2 (f / 100)%float));;
  publish_grade;;
  s ← read lesson_score; mret (Some s).

Definition set_data_scorm_branch (data : json_data) : action (option float) :=
  assign (fun self =>
            set_data_scorm
              (<[name data := default "" (value data)]> (data_scorm self)) self);;
  mret None.

(** The [if]/[elif] chain on [name]. *)
Definition set_value_branch (data : json_data) : action (option float) :=
  fun self =>
    if Py.elem (name data) lesson_status_keys
    then set_lesson_status_branch data self
    else if String.eqb (name data) "cmi.success_status"
    then set_success_status_branch data self
    else if Py.elem (name data) raw_score_keys && has_score self
    then set_raw_score_branch data self
    else set_data_scorm_branch data self.

Definition scorm_set_value (data : json_data) : action context :=
  score ← set_value_branch data;
  status ← read get_completion_status;
  when (Py.str_in status complete_values) (emit_completion 1%float);;
  mret {| result := "success";
          ctx_lesson_score := score;
          completion_status := status |}.

(** *** The manifest reader *)

(** The default namespace: the uri of the first declaration whose prefix is
    empty, [""] when there is none. *)
Fixpoint default_namespace (start_ns : list (string * string)) : string :=
  match start_ns with
  | (prefix, uri) :: rest =>
      if String.eqb prefix "" then uri else default_namespace rest
  | [] => ""
  end.

Definition find_resource (namespace : string) (root : ET.Element) :=
  if String.eqb namespace ""
  then ET.find2 root "resources" "resource"
  else ET.find2 root (ET.qname namespace "resources")
                     (ET.qname namespace "resource").

Definition find_schemaversion (namespace : string) (root : ET.Element) :=
  if String.eqb namespace ""
  then ET.find2 root "metadata" "schemaversion"
  else ET.find2 root (ET.qname namespace "metadata")
                     (ET.qname namespace "schemaversion").

Definition read_manifest (file : ET.manifest_file) : action unit :=
  match file with
  | ET.NoFile => mret tt                              (* except IOError: pass *)
  | ET.Unparsable why => raise (ET.raised_by why)
  | ET.Document start_ns root =>
      let namespace := default_namespace start_ns in
      let resource := find_resource namespace root in
      let schemaversion := find_schemaversion namespace root in
      match resource with
      | Some r => assign (set_path_index_page (Field.stored (ET.get r "href")))
      | None => mret tt
      end;;
      match schemaversion with
      | Some sv =>
          match ET.text sv with
          | Some t =>
              if negb (Py.re_match_1_2 t)
              then assign (set_version_scorm SCORM_2004)
              else assign (set_version_scorm SCORM_12)
          | None => raise Py.TypeError
          end
      | None => assign (set_version_scorm SCORM_12)
      end
  end.

Definition scorm_file_url (self : ScormXBlock) : string :=
  Py.path_join (SCORM_URL settings)
    (org (location self) +:+ "/" +:+ course (location self) +:+ "/"
     +:+ block_id (location self) +:+ "/" +:+ Py.str (path_index_page self)).

Definition set_fields_xblock (file : ET.manifest_file) : action unit :=
  assign (set_path_index_page (Field.stored (Some "index.html")));;
  read_manifest file;;
  assign (fun self =>
            set_scorm_file (Field.stored (Some (scorm_file_url self))) self).

End Handlers.


(* ===================================================================== *)
(** ** Sessions: sequences of handler calls                               *)
(* ===================================================================== *)

Inductive call : Set :=
| GetValue (data : json_data)
| SetValue (data : json_data).

(** The block after one call.  [scorm_get_value] assigns nothing; a
    [scorm_set_value] that raises leaves the fields as they were when it
    raised. *)
Definition step (settings : Settings) (self : ScormXBlock) (c : call)
  : ScormXBlock :=
  match c with
  | GetValue _ => self
  | SetValue data => self_of (scorm_set_value settings data self)
  end.

Definition run (settings : Settings) (calls : list call) (self : ScormXBlock)
  : ScormXBlock :=
  fold_left (step settings) calls self.

(* ===================================================================== *)
(** ** Vocabulary of the statements                                       *)
(* ===================================================================== *)

Definition lesson_status_vocabulary : list string :=
  ["not attempted"; "incomplete"; "completed"; "passed"; "failed"].
Definition success_status_vocabulary : list string :=
  ["unknown"; "passed"; "failed"].

Definition in_vocabulary (self : ScormXBlock) : Prop :=
  Py.str_in (lesson_status self) lesson_status_vocabulary = true
  /\ Py.str_in (success_status self) success_status_vocabulary = true.

(** A call that writes only vocabulary words to the two status keys. *)
Definition writes_vocabulary (c : call) : Prop :=
  match c with
  | GetValue _ => True
  | SetValue data =>
      (Py.elem (name data) lesson_status_keys = true ->
       Py.str_in (value data) lesson_status_vocabulary = true)
      /\ (name data = "cmi.success_status" ->
          Py.str_in (value data) success_status_vocabulary = true)
  end.

(** The condition under which [publish_grade] replaces the score by 0. *)
Definition failed_or_unsuccessful (self : ScormXBlock) : Prop :=
  lesson_status self = Some "failed"
  \/ (version_scorm self = SCORM_2004
      /\ (success_status self = Some "failed"
          \/ success_status self = Some "unknown")).

(** The completion status is one of [passed], [failed], [completed]. *)
Definition is_complete (status : option string) : Prop :=
  exists s, status = Some s /\ In s ["passed"; "failed"; "completed"].

Definition is_completion (e : event) : bool := negb (is_grade e).

(** What holds of a grade event [(v, m)] published for the block [self]. *)
Definition grade_of_block (self : ScormXBlock) (v m : float) : Prop :=
  m = weight self /\ (v = 0%float \/ v = lesson_score self).

(** A score within [0, 1], as floats compare. *)
Definition unit_score (v : float) : Prop :=
  (0 <=? v)%float = true /\ (v <=? 1)%float = true.

(** A request that keeps to percentages: if it is on a raw-score key and
    carries a number, the number is within [0, 100]. *)
Definition percent_data (data : json_data) : Prop :=
  Py.elem (name data) raw_score_keys = true ->
  forall s f, value data = Some s -> Py.float_of_string s = Some f ->
  (0 <=? f)%float = true /\ (f <=? 100)%float = true.

Definition percent_call (c : call) : Prop :=
  match c with
  | GetValue _ => True
  | SetValue data => percent_data data
  end.

(** The numbers 100 and 1 as binary64 (mantissa and exponent), and what it
    is for a binary64 number to be within [0, 1]: a zero, or a positive
    mantissa [m] and an exponent [e <= 0] with [m <= 2 ^ (- e)]. *)
Definition SF100 : spec_float := S754_finite false 7036874417766400 (-46).
Definition SF1 : spec_float := S754_finite false 4503599627370496 (-52).

Definition SFunit (x : spec_float) : Prop :=
  match x with
  | S754_zero _ => True
  | S754_finite s m e => s = false /\ e <= 0 /\ Z.pos m <= 2 ^ (- e)
  | _ => False
  end.

(** The only way [scorm_set_value] raises. *)
Definition raw_score_unparsable (data : json_data) (self : ScormXBlock) : Prop :=
  Py.elem (name data) raw_score_keys = true
  /\ has_score self = true
  /\ exists s, value data = Some s /\ Py.float_of_string s = None.

(** The strings [re.match("^1.2$", s)] accepts. *)
Definition matches_1_any_2 (s : string) : Prop :=
  exists c : ascii,
    c <> Py.newline
    /\ (s = String "1" (String c "2")
        \/ s = String "1" (String c (String "2" (String Py.newline "")))).

Section Observations.

Variable settings : Settings.

(** The grade event [publish_grade] sends for a block. *)
Definition graded (self : ScormXBlock) : event :=
  Grade (if grade_is_zeroed settings self then 0%float else lesson_score self)
        (weight self).

(** The completion events and the context a returning [scorm_set_value]
    ends with. *)
Definition completion_events (self : ScormXBlock) : list event :=
  if Py.str_in (get_completion_status self) complete_values
  then [Completion 1%float] else [].

Definition final_context (score : option float) (self : ScormXBlock) : context :=
  {| result := "success";
     ctx_lesson_score := score;
     completion_status := get_completion_status self |}.

End Observations.

(* ===================================================================== *)
(** ** Sample inputs                                                      *)
(* ===================================================================== *)

Module Sample.

Definition settings : Settings :=
  {| MEDIA_URL := "/media/"; ENABLE_PUBLISH_FAILED_SCORM_SCORE := false |}.

Definition loc : Location :=
  {| org := "edX"; course := "Demo"; block_id := "scorm1" |}.

Definition block : ScormXBlock := new_block loc.

(** A manifest without namespace: one [metadata/schemaversion] with the
    given text and one [resources/resource] with the given attributes. *)
Definition manifest (resource_attrib : list (string * string))
    (schemaversion : option string) : ET.manifest_file :=
  ET.Document []
    (ET.Elem "manifest" [("identifier", "course")] None
       [ ET.Elem "metadata" [] None
           [ ET.Elem "schema" [] (Some "ADL SCORM") [];
             ET.Elem "schemaversion" [] schemaversion [] ];
         ET.Elem "organizations" [] None [];
         ET.Elem "resources" [] None
           [ ET.Elem "resource" resource_attrib None [] ] ]).

(** The same under the default namespace [http://example/ims]. *)
Definition manifest_ns (href schemaversion : string) : ET.manifest_file :=
  let q := ET.qname "http://example/ims" in
  ET.Document [("xsi", "http://www.w3.org/2001/XMLSchema-instance");
               ("", "http://example/ims")]
    (ET.Elem (q "manifest") [] None
       [ ET.Elem (q "metadata") [] None
           [ ET.Elem (q "schemaversion") [] (Some schemaversion) [] ];
         ET.Elem (q "resources") [] None
           [ ET.Elem (q "resource") [("href", href)] None [] ] ]).

Definition set_raw (v : string) : json_data :=
  {| name := "cmi.core.score.raw"; value := Some v |}.
Definition get_raw : json_data :=
  {| name := "cmi.score.raw"; value := None |}.
Definition set_key (key v : string) : json_data :=
  {| name := key; value := Some v |}.

(** The control character U+0001. *)
Definition SOH : ascii := ascii_of_nat 1.
(** ["unk\x01nown"] and ["pas\x01sed"] *)
Definition unk_nown : string := "unk" +:+ String SOH "nown".
Definition pas_sed : string := "pas" +:+ String SOH "sed".

End Sample.

(* ===================================================================== *)
(** ** More of the block: scores, contexts, storage paths                 *)
(* ===================================================================== *)

(** [max_score]: the weight of a scored block, [None] otherwise. *)
Definition max_score (self : ScormXBlock) : option float :=
  if has_score self then Some (weight self) else None.

(** Truth value of a field that holds a string or [None]. *)
Definition truthy (v : option string) : bool :=
  match v with
  | Some s => negb (String.eqb s "")
  | None => false
  end.

(** The entries of [get_context_student] that are data (the third entry is
    the block itself). *)
Record student_context : Set := {
  scorm_file_path : string;
  student_completion_status : option string
}.

Definition get_context_student (self : ScormXBlock) : student_context :=
  {| scorm_file_path :=
       if truthy (scorm_file self) then Py.str (scorm_file self) else "";
     student_completion_status := get_completion_status self |}.

(** The calls of a session that write [key], and the value the last of them
    wrote (the empty string for a call without value). *)
Definition written (key : string) (c : call) : option string :=
  match c with
  | SetValue data =>
      if String.eqb (name data) key then Some (default "" (value data))
      else None
  | GetValue _ => None
  end.

Fixpoint last_written (key : string) (calls : list call) : option string :=
  match calls with
  | [] => None
  | c :: rest =>
      match last_written key rest with
      | Some v => Some v
      | None => written key c
      end
  end.

(** A key the handlers treat as free-form SCORM data. *)
Definition free_form (key : string) : Prop :=
  Py.elem key lesson_status_keys = false
  /\ String.eqb key "cmi.success_status" = false
  /\ Py.elem key raw_score_keys = false.

Module Posix.

(** [os.path.join(a, *p)] *)
Definition join (a : string) (p : list string) : string :=
  fold_left Py.path_join p a.

(** [s.replace(old, new)]: every leftmost, non-overlapping occurrence of
    [old]; an empty [old] matches before every character and at the end.
    [scan] skips the [skip] characters left of an occurrence already
    replaced. *)
Fixpoint scan (old new : string) (skip : nat) (s : string) : string :=
  match s with
  | EmptyString => EmptyString
  | String c s' =>
      match skip with
      | S k => scan old new k s'
      | O =>
          if String.prefix old s
          then new +:+ scan old new (String.length old - 1) s'
          else String c (scan old new 0 s')
      end
  end.

Fixpoint between (new : string) (s : string) : string :=
  match s with
  | EmptyString => new
  | String c s' => new +:+ String c (between new s')
  end.

Definition replace (s old new : string) : string :=
  if String.eqb old "" then between new s else scan old new 0 s.

(** [old] occurs in [s]. *)
Definition occurs (old s : string) : Prop :=
  exists a b, s = a +:+ old +:+ b.

(** [old in s] *)
Fixpoint occursb (old s : string) : bool :=
  match s with
  | EmptyString => String.prefix old s
  | String _ s' => String.prefix old s || occursb old s'
  end.

End Posix.

Section StoragePaths.

(** [settings.MEDIA_ROOT] *)
Variable MEDIA_ROOT : string.

Definition SCORM_ROOT : string := Py.path_join MEDIA_ROOT "scormxblockmedia".

Definition local_storage_path (self : ScormXBlock) : string :=
  Posix.join SCORM_ROOT
    [org (location self); course (location self); block_id (location self)].

Definition _file_storage_path (self : ScormXBlock) : string :=
  "scormxblockmedia/" +:+ org (location self) +:+ "/"
  +:+ course (location self) +:+ "/" +:+ block_id (location self).

Definition get_remote_path (self : ScormXBlock) (local_path : string) : string :=
  _file_storage_path self
  +:+ Posix.replace local_path (local_storage_path self) "".

End StoragePaths.

(* ===================================================================== *)
(** ** The uploaded file and its fingerprint                              *)
(* ===================================================================== *)

Module Upload.

(** A binary file object: its bytes and the read cursor. *)
Record file_descriptor : Set := {
  content : list Byte.byte;
  position : nat
}.

(** [read(n)]: up to [n] bytes from the cursor, which advances by what was
    read; nothing at or past the end. *)
Definition read (n : nat) (fd : file_descriptor)
  : list Byte.byte * file_descriptor :=
  let block := firstn n (skipn (position fd) (content fd)) in
  (block, {| content := content fd;
             position := (position fd + length block)%nat |}).

Definition seek (offset : nat) (fd : file_descriptor) : file_descriptor :=
  {| content := content fd; position := offset |}.

(** The bytes from the cursor on. *)
Definition unread (fd : file_descriptor) : list Byte.byte :=
  skipn (position fd) (content fd).

Definition block_size : nat := 8 * 1024.

Section Sha1.

(** [hashlib.sha1]: a new hash object, [update] and [hexdigest]. *)
Variable hash : Type.
Variable sha1 : hash.
Variable update : hash -> list Byte.byte -> hash.
Variable hexdigest : hash -> string.

(** The [while True] loop of [get_sha1], for at most [fuel] reads; [None]
    when the reads run out before the empty block. *)
Fixpoint read_blocks (fuel : nat) (h : hash) (fd : file_descriptor)
  : option (hash * file_descriptor) :=
  match fuel with
  | O => None
  | S k =>
      let '(block, fd') := read block_size fd in
      match block with
      | [] => Some (h, fd')
      | _ :: _ => read_blocks k (update h block) fd'
      end
  end.

Definition get_sha1 (fuel : nat) (fd : file_descriptor)
  : option (string * file_descriptor) :=
  match read_blocks fuel sha1 fd with
  | Some (h, fd') => Some (hexdigest h, seek 0 fd')
  | None => None
  end.

End Sha1.

End Upload.

(* ===================================================================== *)
(** ** The remote store and its cleaning                                  *)
(* ===================================================================== *)

Module Store.

#[local] Unset Elimination Schemes.
(** What [default_storage.listdir] shows under a path: the names of the
    files, and the directories with what is under each. *)
Inductive listing : Type :=
| Dir (files : list string) (dirs : list (string * listing)).
#[local] Set Elimination Schemes.

(** ["/".join([path, name])] *)
Definition slash (path name : string) : string := path +:+ "/" +:+ name.

(** [_delete_existing_files(path)]: the paths handed to
    [default_storage.delete], in the order they are submitted: the files of
    a level, then each directory in turn.  A delete that fails is never
    looked at. *)
Fixpoint _delete_existing_files (path : string) (here : listing) : list string :=
  match here with
  | Dir files dirs =>
      map (slash path) files
      ++ flat_map (fun d => _delete_existing_files (slash path (fst d)) (snd d))
                  dirs
  end.

(** The file [file] lies under the directories [under], outermost first. *)
Inductive holds : listing -> list string -> string -> Prop :=
| holds_here files dirs file :
    In file files -> holds (Dir files dirs) [] file
| holds_below files dirs d sub under file :
    In (d, sub) dirs -> holds sub under file ->
    holds (Dir files dirs) (d :: under) file.

Fixpoint count_files (here : listing) : nat :=
  match here with
  | Dir files dirs =>
      (length files + list_sum (map (fun d => count_files (snd d)) dirs))%nat
  end.

End Store.

(* ===================================================================== *)
(** ** The builtins on known values                                       *)
(* ===================================================================== *)

(** Values CPython gives, as a check of the model of [float] and [round]. *)
Example float_of_string_examples :
  Py.float_of_string "87" = Some 87%float
  /\ Py.float_of_string " 12.5 " = Some 12.5%float
  /\ Py.float_of_string "-50" = Some (-50)%float
  /\ Py.float_of_string "1e2" = Some 100%float
  /\ Py.float_of_string "1_000" = Some 1000%float
  /\ Py.float_of_string "-inf" = Some neg_infinity
  /\ Py.float_of_string "" = None
  /\ Py.float_of_string "eighty" = None
  /\ Py.float_of_string "1 2" = None
  /\ Py.float_of_string "0x10" = None
  /\ Py.float_of_string "1_" = None.
Proof. repeat split; vm_compute; reflexivity. Qed.

(** [round(0.125, 2) = 0.12] (an exact tie goes to even), while
    [round(0.5 / 100, 2) = 0.01]: the double 0.005 lies above the tie. *)
Example round2_examples :
  Py.round2 0.125 = (12 / 100)%float
  /\ Py.round2 (0.5 / 100) = (1 / 100)%float
  /\ Py.round2 (87 / 100) = (87 / 100)%float
  /\ Py.round2 1.5 = 1.5%float
  /\ Py.round2 infinity = infinity.
Proof. repeat split; vm_compute; reflexivity. Qed.

Example path_join_examples :
  Py.path_join "/media/scormxblockmedia" "a/b" = "/media/scormxblockmedia/a/b"
  /\ Py.path_join "/media/" "a" = "/media/a"
  /\ Py.path_join "/media" "/a" = "/a".
Proof. repeat split; reflexivity. Qed.

(** The pattern [^1.2$] accepts exactly the three-character strings
    ['1'], any character but a newline, ['2'], optionally followed by one
    newline. *)
Lemma re_match_1_2_spec s :
  Py.re_match_1_2 s = true <-> matches_1_any_2 s.
Proof.
  unfold Py.re_match_1_2, matches_1_any_2.
  remember (list_ascii_of_string s) as l eqn:Hl.
  apply (f_equal string_of_list_ascii) in Hl.
  rewrite string_of_list_ascii_of_string in Hl. subst s.
  destruct l as [|c1 [|c2 [|c3 [|c4 [|c5 l]]]]];
    cbn [string_of_list_ascii];
    try (split; [discriminate | intros (c & _ & [H | H]); discriminate]).
  - rewrite !andb_true_iff, negb_true_iff. split.
    + intros [[H1 H2] H3]. apply Ascii.eqb_eq in H1, H3. subst.
      exists c2. split; [|now left]. intros ->.
      now rewrite Ascii.eqb_refl in H2.
    + intros (c & Hc & [[= -> -> ->] | H]); [|discriminate].
      rewrite !Ascii.eqb_refl. repeat split.
      now apply Ascii.eqb_neq.
  - rewrite !andb_true_iff, negb_true_iff. split.
    + intros [[[H1 H2] H3] H4]. apply Ascii.eqb_eq in H1, H3, H4. subst.
      exists c2. split; [|now right]. intros ->.
      now rewrite Ascii.eqb_refl in H2.
    + intros (c & Hc & [H | [= -> -> -> ->]]); [discriminate|].
      rewrite !Ascii.eqb_refl. repeat split.
      now apply Ascii.eqb_neq.
Qed.

(* ===================================================================== *)
(** ** Running the methods                                                *)
(* ===================================================================== *)

Ltac unfold_action :=
  unfold mbind, action_bind, mret, action_ret, bind, ret, read, assign,
    publish, raise, when, emit_completion in *.

(** Python's [==] and [in] on these values, as propositions. *)
Lemma str_eq_true v s : Py.str_eq v s = true <-> v = Some s.
Proof.
  destruct v as [x|]; cbn.
  - rewrite String.eqb_eq. split; [now intros ->|now intros [= ->]].
  - split; discriminate.
Qed.

Lemma str_eq_false v s : Py.str_eq v s = false <-> v <> Some s.
Proof.
  rewrite <- str_eq_true. destruct (Py.str_eq v s); split; congruence.
Qed.

Lemma str_in_true v l : Py.str_in v l = true <-> exists s, v = Some s /\ In s l.
Proof.
  destruct v as [x|]; cbn.
  - unfold Py.elem. rewrite existsb_exists. split.
    + intros (s & Hin & Heq). apply String.eqb_eq in Heq. subst. eauto.
    + intros (s & [= ->] & Hin). exists s. split; [auto|apply String.eqb_refl].
  - split; [discriminate|]. intros (s & Heq & _). discriminate.
Qed.

(** A word without forbidden characters is stored as it is. *)
Lemma stored_clean_word v l :
  List.Forall (fun w => Field.sanitize w = w) l ->
  Py.str_in v l = true -> Field.stored v = v.
Proof.
  intros Hl Hin. apply str_in_true in Hin. destruct Hin as (s & -> & Hin).
  rewrite List.Forall_forall in Hl. cbn. now rewrite (Hl s Hin).
Qed.

Lemma stored_lesson_status_word v :
  Py.str_in v lesson_status_vocabulary = true -> Field.stored v = v.
Proof. apply stored_clean_word. repeat constructor. Qed.

Lemma stored_success_status_word v :
  Py.str_in v success_status_vocabulary = true -> Field.stored v = v.
Proof. apply stored_clean_word. repeat constructor. Qed.

Lemma scorm_version_eqb_true a b : scorm_version_eqb a b = true <-> a = b.
Proof. destruct a, b; cbn; split; congruence. Qed.

(** Membership in the key lists, as equations on the name. *)
Lemma elem_raw_score_keys n :
  Py.elem n raw_score_keys = true ->
  n = "cmi.core.score.raw" \/ n = "cmi.score.raw".
Proof.
  unfold Py.elem, raw_score_keys. cbn [existsb].
  rewrite !orb_true_iff, !String.eqb_eq. intuition discriminate.
Qed.

Lemma raw_score_key_not_status n :
  Py.elem n raw_score_keys = true ->
  Py.elem n lesson_status_keys = false
  /\ String.eqb n "cmi.success_status" = false.
Proof.
  intros H. destruct (elem_raw_score_keys n H) as [-> | ->]; split; reflexivity.
Qed.

Section HandlerFacts.

Variable settings : Settings.

Lemma publish_grade_returns self :
  publish_grade settings self = Returned self [graded settings self] tt.
Proof.
  unfold publish_grade, graded. unfold_action. cbn.
  destruct (grade_is_zeroed settings self); reflexivity.
Qed.

Lemma grade_is_zeroed_true self :
  ENABLE_PUBLISH_FAILED_SCORM_SCORE settings = false ->
  grade_is_zeroed settings self = true <-> failed_or_unsuccessful self.
Proof.
  intros Hflag. unfold grade_is_zeroed, failed_or_unsuccessful.
  rewrite Hflag. cbn [negb andb].
  rewrite orb_true_iff, andb_true_iff, str_eq_true, scorm_version_eqb_true.
  rewrite str_in_true.
  split.
  - intros [H | [Hv (s & Hs & Hin)]]; [now left|right]. split; [exact Hv|].
    destruct Hin as [<- | [<- | []]]; auto.
  - intros [H | [Hv [Hs | Hs]]]; [now left| |]; right; split; auto;
      eexists; (split; [exact Hs|]); cbn; auto.
Qed.

Lemma graded_grade_of_block self v m :
  Grade v m = graded settings self -> grade_of_block self v m.
Proof.
  unfold graded. intros H. injection H as -> ->.
  destruct (grade_is_zeroed settings self); repeat split; auto.
Qed.

(** *** The branches of [scorm_set_value] *)

Lemma set_lesson_status_branch_returns data self :
  set_lesson_status_branch settings data self =
    let self1 := set_lesson_status (Field.stored (value data)) self in
    if has_score self && Py.str_in (value data) ["completed"; "failed"; "passed"]
    then Returned self1 [graded settings self1] (Some (lesson_score self))
    else Returned self1 [] None.
Proof.
  unfold set_lesson_status_branch. unfold_action. cbn.
  destruct (has_score self && _); cbn; [|reflexivity].
  rewrite publish_grade_returns. reflexivity.
Qed.

Lemma set_success_status_branch_returns data self :
  set_success_status_branch settings data self =
    let self1 := set_success_status (Field.stored (value data)) self in
    let self2 := if Py.str_eq (Field.stored (value data)) "unknown"
                 then set_lesson_score 0%float self1 else self1 in
    if has_score self
    then Returned self2 [graded settings self2] (Some (lesson_score self2))
    else Returned self1 [] None.
Proof.
  unfold set_success_status_branch. unfold_action. cbn.
  destruct (has_score self); cbn; [|reflexivity].
  destruct (Py.str_eq (Field.stored (value data)) "unknown"); cbn;
    rewrite publish_grade_returns; reflexivity.
Qed.

Lemma float_of_value_cases data self :
  float_of_value data self =
    match value data with
    | None => Returned self [] 0%float
    | Some s =>
        match Py.float_of_string s with
        | Some f => Returned self [] f
        | None => Raised Py.ValueError self []
        end
    end.
Proof.
  unfold float_of_value. destruct (value data) as [s|]; [|reflexivity].
  destruct (Py.float_of_string s); reflexivity.
Qed.

Lemma set_raw_score_branch_returns data self f :
  float_of_value data self = Returned self [] f ->
  set_raw_score_branch settings data self =
    let self1 := set_lesson_score (Py.round2 (f / 100)%float) self in
    Returned self1 [graded settings self1] (Some (lesson_score self1)).
Proof.
  intros H. unfold set_raw_score_branch. unfold_action. rewrite H. cbn.
  rewrite publish_grade_returns. reflexivity.
Qed.

Lemma set_raw_score_branch_raises data self e :
  float_of_value data self = Raised e self [] ->
  set_raw_score_branch settings data self = Raised e self [].
Proof.
  intros H. unfold set_raw_score_branch. unfold_action. now rewrite H.
Qed.

Lemma set_data_scorm_branch_returns data self :
  set_data_scorm_branch data self =
    Returned
      (set_data_scorm
         (<[name data := default "" (value data)]> (data_scorm self)) self)
      [] None.
Proof. reflexivity. Qed.

(** Case analysis on the branch a call takes: [tac] closes each case after
    the branch has been rewritten to its outcome. *)
Ltac branch_cases data self tac :=
  unfold set_value_branch;
  destruct (Py.elem (name data) lesson_status_keys); cbn [negb andb];
  [ rewrite set_lesson_status_branch_returns; cbn zeta;
    destruct (has_score self && _); tac
  | destruct (String.eqb (name data) "cmi.success_status") eqn:?;
    [ rewrite set_success_status_branch_returns; cbn zeta;
      destruct (has_score self),
        (Py.str_eq (Field.stored (value data)) "unknown"); tac
    | destruct (Py.elem (name data) raw_score_keys && has_score self);
      [ let Hf := fresh "Hf" in
        pose proof (float_of_value_cases data self) as Hf;
        destruct (value data) as [?s|];
        [ destruct (Py.float_of_string s) as [?f|];
          [ rewrite (set_raw_score_branch_returns _ _ _ Hf)
          | rewrite (set_raw_score_branch_raises _ _ _ Hf) ]
        | rewrite (set_raw_score_branch_returns _ _ _ Hf) ]; tac
      | rewrite set_data_scorm_branch_returns; tac ] ] ].

(** [scorm_set_value] after its branch: the completion check and the
    returned context. *)
Lemma scorm_set_value_returns data self self1 ev score :
  set_value_branch settings data self = Returned self1 ev score ->
  scorm_set_value settings data self =
    Returned self1 (ev ++ completion_events self1) (final_context score self1).
Proof.
  intros H. unfold scorm_set_value. unfold_action. rewrite H.
  unfold completion_events, final_context. cbn.
  destruct (Py.str_in (get_completion_status self1) complete_values);
    reflexivity.
Qed.

Lemma scorm_set_value_raises data self self1 ev e :
  set_value_branch settings data self = Raised e self1 ev ->
  scorm_set_value settings data self = Raised e self1 ev.
Proof.
  intros H. unfold scorm_set_value. unfold_action. now rewrite H.
Qed.

Lemma self_of_scorm_set_value data self :
  self_of (scorm_set_value settings data self) =
    self_of (set_value_branch settings data self).
Proof.
  destruct (set_value_branch settings data self) as [s ev a | e s ev] eqn:H.
  - now rewrite (scorm_set_value_returns _ _ _ _ _ H).
  - now rewrite (scorm_set_value_raises _ _ _ _ _ H).
Qed.

(** A call returns, or raises [ValueError] with nothing assigned and
    nothing published. *)
Lemma set_value_branch_cases data self :
  (exists self1 ev score,
      set_value_branch settings data self = Returned self1 ev score)
  \/ (set_value_branch settings data self = Raised Py.ValueError self []
      /\ raw_score_unparsable data self).
Proof.
  unfold set_value_branch.
  destruct (Py.elem (name data) lesson_status_keys).
  { left. rewrite set_lesson_status_branch_returns. cbn zeta.
    destruct (has_score self && _); eauto. }
  destruct (String.eqb (name data) "cmi.success_status").
  { left. rewrite set_success_status_branch_returns. cbn zeta.
    destruct (has_score self); eauto. }
  destruct (Py.elem (name data) raw_score_keys) eqn:Hraw;
    [destruct (has_score self) eqn:Hscore|]; cbn [andb].
  - pose proof (float_of_value_cases data self) as Hf.
    destruct (value data) as [s|] eqn:Hv.
    + destruct (Py.float_of_string s) as [f|] eqn:Hs.
      * left. rewrite (set_raw_score_branch_returns _ _ f Hf). eauto.
      * right. split; [now apply set_raw_score_branch_raises|].
        repeat split; eauto.
    + left. rewrite (set_raw_score_branch_returns _ _ _ Hf). eauto.
  - left. rewrite set_data_scorm_branch_returns. eauto.
  - left. rewrite set_data_scorm_branch_returns. eauto.
Qed.

(** The two status fields hold what was last written to their keys, as a
    [String] field stores it. *)
Lemma statuses_after_set data self :
  let self' := self_of (scorm_set_value settings data self) in
  lesson_status self' =
    (if Py.elem (name data) lesson_status_keys
     then Field.stored (value data) else lesson_status self)
  /\ success_status self' =
       (if negb (Py.elem (name data) lesson_status_keys)
           && String.eqb (name data) "cmi.success_status"
        then Field.stored (value data) else success_status self).
Proof.
  cbn zeta. rewrite self_of_scorm_set_value.
  branch_cases data self ltac:(split; reflexivity).
Qed.

(** [weight] is a setting: no handler assigns it. *)
Lemma weight_after_branch data self :
  weight (self_of (set_value_branch settings data self)) = weight self.
Proof. branch_cases data self ltac:(reflexivity). Qed.

(** The branch publishes nothing, or the one grade event of the block as the
    branch leaves it. *)
Lemma published_of_branch data self :
  let o := set_value_branch settings data self in
  published_of o = [] \/ published_of o = [graded settings (self_of o)].
Proof. cbn zeta. branch_cases data self ltac:(cbn; auto). Qed.

Lemma branch_publishes_grades_only data self :
  filter is_completion (published_of (set_value_branch settings data self))
  = [].
Proof.
  destruct (published_of_branch data self) as [-> | ->]; reflexivity.
Qed.

Lemma completion_events_no_grade self :
  filter is_grade (completion_events self) = [].
Proof.
  unfold completion_events.
  destruct (Py.str_in (get_completion_status self) complete_values);
    reflexivity.
Qed.

Lemma grade_in_set_value data self v m :
  In (Grade v m) (published_of (scorm_set_value settings data self)) ->
  Grade v m = graded settings (self_of (scorm_set_value settings data self)).
Proof.
  rewrite self_of_scorm_set_value.
  pose proof (published_of_branch data self) as Hp. cbn zeta in Hp.
  destruct (set_value_branch settings data self) as [s ev a | e s ev] eqn:H.
  - rewrite (scorm_set_value_returns _ _ _ _ _ H). cbn in *.
    rewrite in_app_iff. intros [Hin | Hin].
    + destruct Hp as [-> | ->]; [destruct Hin|].
      destruct Hin as [<- | []]. reflexivity.
    + unfold completion_events in Hin.
      destruct (Py.str_in _ _); [destruct Hin as [Hin | []]; discriminate|].
      destruct Hin.
  - rewrite (scorm_set_value_raises _ _ _ _ _ H). cbn in *.
    destruct Hp as [-> | ->]; [intros []|].
    intros [<- | []]. reflexivity.
Qed.

(** *** The manifest reader *)

(** With the manifest absent the entry point is the default, the version
    field is not assigned, and the call returns. *)
Lemma set_fields_xblock_no_file self :
  set_fields_xblock settings ET.NoFile self =
    let self1 := set_path_index_page (Some "index.html") self in
    Returned
      (set_scorm_file (Some (Field.sanitize (scorm_file_url settings self1)))
         self1)
      [] tt.
Proof. reflexivity. Qed.

(** A manifest that parses: the entry point is the [href] of the first
    resource (whatever [get] returns, as the field stores it), the default
    without a resource; the version follows the pattern match on the
    schemaversion text. *)
Lemma set_fields_xblock_document start_ns root self :
  set_fields_xblock settings (ET.Document start_ns root) self =
    let namespace := default_namespace start_ns in
    let self1 :=
      set_path_index_page
        (match find_resource namespace root with
         | Some r => Field.stored (ET.get r "href")
         | None => Some "index.html"
         end) self in
    let finish v :=
      let self2 := set_version_scorm v self1 in
      Returned
        (set_scorm_file (Some (Field.sanitize (scorm_file_url settings self2)))
           self2)
        [] tt in
    match find_schemaversion namespace root with
    | Some sv =>
        match ET.text sv with
        | Some t => finish (if Py.re_match_1_2 t then SCORM_12 else SCORM_2004)
        | None => Raised Py.TypeError self1 []
        end
    | None => finish SCORM_12
    end.
Proof.
  unfold set_fields_xblock, read_manifest. unfold_action. cbn zeta.
  destruct (find_resource _ root) as [r|];
    (destruct (find_schemaversion _ root) as [sv|]; [|reflexivity]);
    (destruct (ET.text sv) as [t|]; [|reflexivity]);
    destruct (Py.re_match_1_2 t); reflexivity.
Qed.

(** The version a parsed manifest gets: SCORM_12 exactly when the
    schemaversion element is missing or its text matches [^1.2$]; in
    particular for the text ["1.2"]. *)
Lemma version_of_document start_ns root self sv t :
  find_schemaversion (default_namespace start_ns) root = Some sv ->
  ET.text sv = Some t ->
  let o := set_fields_xblock settings (ET.Document start_ns root) self in
  result_of o = Some tt
  /\ (matches_1_any_2 t -> version_scorm (self_of o) = SCORM_12)
  /\ (~ matches_1_any_2 t -> version_scorm (self_of o) = SCORM_2004)
  /\ (t = "1.2" -> version_scorm (self_of o) = SCORM_12).
Proof.
  intros Hsv Ht. cbn zeta. rewrite set_fields_xblock_document. cbn zeta.
  rewrite Hsv, Ht. rewrite <- re_match_1_2_spec.
  split; [reflexivity|]. split; [|split].
  - intros ->. reflexivity.
  - intros H. destruct (Py.re_match_1_2 t); [congruence|reflexivity].
  - intros ->. reflexivity.
Qed.

(** The score after a set call: untouched, reset to 0, or the rounded
    hundredth of the number the call carried (of 0 when it carried no
    value). *)
Lemma lesson_score_after_set data self :
  let self' := self_of (scorm_set_value settings data self) in
  lesson_score self' = lesson_score self
  \/ lesson_score self' = 0%float
  \/ (Py.elem (name data) raw_score_keys = true
      /\ exists s f, value data = Some s /\ Py.float_of_string s = Some f
                     /\ lesson_score self' = Py.round2 (f / 100)%float)
  \/ lesson_score self' = Py.round2 (0 / 100)%float.
Proof.
  cbn zeta. rewrite self_of_scorm_set_value. unfold set_value_branch.
  destruct (Py.elem (name data) lesson_status_keys).
  { left. rewrite set_lesson_status_branch_returns. cbn zeta.
    destruct (has_score self && _); reflexivity. }
  destruct (String.eqb (name data) "cmi.success_status").
  { rewrite set_success_status_branch_returns. cbn zeta.
    destruct (has_score self),
      (Py.str_eq (Field.stored (value data)) "unknown"); cbn; auto. }
  destruct (Py.elem (name data) raw_score_keys) eqn:Hraw;
    [destruct (has_score self) eqn:Hscore|]; cbn [andb].
  - pose proof (float_of_value_cases data self) as Hf.
    destruct (value data) as [s|] eqn:Hv.
    + destruct (Py.float_of_string s) as [f|] eqn:Hs.
      * rewrite (set_raw_score_branch_returns _ _ f Hf). cbn.
        right. right. left. split; [reflexivity|]. now exists s, f.
      * rewrite (set_raw_score_branch_raises _ _ _ Hf). now left.
    + rewrite (set_raw_score_branch_returns _ _ _ Hf). cbn. auto.
  - left. reflexivity.
  - left. reflexivity.
Qed.

Lemma weight_after_run calls self :
  weight (run settings calls self) = weight self.
Proof.
  revert self. induction calls as [|c calls IH]; intros self; [reflexivity|].
  change (run settings (c :: calls) self)
    with (run settings calls (step settings self c)).
  rewrite IH. destruct c as [data | data]; [reflexivity|].
  cbn [step]. rewrite self_of_scorm_set_value. apply weight_after_branch.
Qed.

End HandlerFacts.

(* ===================================================================== *)
(** ** The manifest reader: schema version and entry point                *)
(* ===================================================================== *)

(** C1 on the code: the schemaversion text is matched against the regular
    expression [^1.2$], whose dot is a wildcard, so the text ["1x2"] (not
    ["1.2"], not empty) is classified SCORM_12; and with the manifest
    absent the version field is left as it was, so a block that was
    SCORM_2004 stays SCORM_2004 (the entry point is ["index.html"]). *)
Theorem C1_schemaversion_detection_at_failing_inputs :
  let wildcard :=
    set_fields_xblock Sample.settings
      (Sample.manifest [("href", "start.html")] (Some "1x2")) Sample.block in
  let absent :=
    set_fields_xblock Sample.settings ET.NoFile
      (set_version_scorm SCORM_2004 Sample.block) in
  result_of wildcard = Some tt
  /\ version_scorm (self_of wildcard) = SCORM_12
  /\ result_of absent = Some tt
  /\ version_scorm (self_of absent) = SCORM_2004
  /\ path_index_page (self_of absent) = Some "index.html".
Proof. cbn zeta. repeat split; vm_compute; reflexivity. Qed.

(** C9 on the code: when the first resource has no [href], [resource.get]
    returns [None] and it is assigned over the default: the entry point is
    [None], not ["index.html"], and the content URL ends in [None]. *)
Theorem C9_resource_without_href_at_failing_input :
  let o :=
    set_fields_xblock Sample.settings
      (Sample.manifest [("identifier", "r1"); ("type", "webcontent")]
         (Some "1.2")) Sample.block in
  result_of o = Some tt
  /\ path_index_page (self_of o) = None
  /\ scorm_file (self_of o)
     = Some "/media/scormxblockmedia/edX/Demo/scorm1/None".
Proof. cbn zeta. repeat split; vm_compute; reflexivity. Qed.

(** The scenario of a manifest under the namespace [http://example/ims]
    with [href="start.html"] and schemaversion ["1.2"]. *)
Example manifest_ns_scenario :
  let o := set_fields_xblock Sample.settings
             (Sample.manifest_ns "start.html" "1.2") Sample.block in
  path_index_page (self_of o) = Some "start.html"
  /\ version_scorm (self_of o) = SCORM_12
  /\ scorm_file (self_of o)
     = Some "/media/scormxblockmedia/edX/Demo/scorm1/start.html".
Proof. cbn zeta. repeat split; vm_compute; reflexivity. Qed.

(* ===================================================================== *)
(** ** The runtime state machine                                          *)
(* ===================================================================== *)

(** C2, as the code has it: a set on a raw-score key of a block whose
    [has_score] is false takes the last branch of [scorm_set_value].  The
    call returns; [lesson_status], [success_status] and [lesson_score] keep
    their values and no grade event is published; the value is stored in
    [data_scorm] under that key (the empty string when the request carries
    no value). *)
Theorem C2_unscored_raw_score_goes_to_data_scorm settings data self :
  Py.elem (name data) raw_score_keys = true ->
  has_score self = false ->
  let self' :=
    set_data_scorm
      (<[name data := default "" (value data)]> (data_scorm self)) self in
  scorm_set_value settings data self =
    Returned self' (completion_events self') (final_context None self')
  /\ lesson_status self' = lesson_status self
  /\ success_status self' = success_status self
  /\ lesson_score self' = lesson_score self
  /\ data_scorm self' !! name data = Some (default "" (value data))
  /\ filter is_grade (completion_events self') = [].
Proof.
  intros Hraw Hscore self'.
  destruct (raw_score_key_not_status _ Hraw) as [Hls Hss].
  repeat split.
  - apply (scorm_set_value_returns settings data self self' [] None).
    unfold set_value_branch. rewrite Hls, Hss, Hraw, Hscore. reflexivity.
  - apply lookup_insert_eq.
  - apply completion_events_no_grade.
Qed.

Lemma C2_unscored_raw_score_witness :
  let self := set_has_score false Sample.block in
  Py.elem (name (Sample.set_raw "50")) raw_score_keys = true
  /\ has_score self = false
  /\ scorm_set_value Sample.settings (Sample.set_raw "50") self =
       Returned (set_data_scorm (<["cmi.core.score.raw" := "50"]> ∅) self) []
                {| result := "success";
                   ctx_lesson_score := None;
                   completion_status := Some "not attempted" |}.
Proof.
  cbn zeta. split; [reflexivity|]. split; [reflexivity|].
  exact (proj1 (C2_unscored_raw_score_goes_to_data_scorm
                  Sample.settings (Sample.set_raw "50")
                  (set_has_score false Sample.block) eq_refl eq_refl)).
Defined.

(** C2, as stated, fails: with [has_score] false, setting
    [cmi.core.score.raw] to ["50"] changes the free-form mapping. *)
Lemma C2_unscored_raw_score_changes_data_scorm :
  let self := set_has_score false Sample.block in
  let data := Sample.set_raw "50" in
  Py.elem (name data) raw_score_keys = true
  /\ has_score self = false
  /\ data_scorm self !! "cmi.core.score.raw" = None
  /\ data_scorm (self_of (scorm_set_value Sample.settings data self))
       !! "cmi.core.score.raw" = Some "50"
  /\ self_of (scorm_set_value Sample.settings data self) <> self.
Proof.
  cbn zeta. repeat split; try (vm_compute; reflexivity).
  intros H. apply (f_equal (fun b => data_scorm b !! "cmi.core.score.raw")) in H.
  vm_compute in H. discriminate.
Qed.

(* ===================================================================== *)
(** ** Binary64 arithmetic on the unit interval                           *)
(* ===================================================================== *)

(** Division by 100 and [round(x, 2)] on the percentages: a number within
    [0, 100] divided by 100 is within [0, 1], and so is its rounding to two
    decimals.  The proofs read the operations on their specification
    ([SFdiv], [binary_round_aux]). *)

Lemma digits2_pos_bounds m :
  2 ^ (Z.pos (digits2_pos m) - 1) <= Z.pos m < 2 ^ Z.pos (digits2_pos m).
Proof.
  induction m as [m IH | m IH |]; cbn [digits2_pos]; [| |cbn; lia];
    rewrite Pos2Z.inj_succ;
    replace (Z.succ (Z.pos (digits2_pos m)) - 1)
      with (Z.succ (Z.pos (digits2_pos m) - 1)) by lia;
    rewrite !Z.pow_succ_r by lia; lia.
Qed.

Lemma Zdigits2_le m k : 0 <= m < 2 ^ k -> 0 <= k -> Zdigits2 m <= k.
Proof.
  intros [Hm Hlt] Hk. destruct m as [|p|p]; [cbn; lia | | lia].
  cbn [Zdigits2]. destruct (digits2_pos_bounds p) as [Hlo _].
  destruct (Z_le_gt_dec (Z.pos (digits2_pos p)) k) as [|Hgt]; [assumption|].
  assert (2 ^ k <= 2 ^ (Z.pos (digits2_pos p) - 1))
    by (apply Z.pow_le_mono_r; lia).
  lia.
Qed.

Lemma shr_1_m mrs : 0 <= shr_m mrs -> shr_m (shr_1 mrs) = shr_m mrs / 2.
Proof.
  destruct mrs as [m r s]. cbn [shr_m]. intros Hm.
  destruct m as [|[p|p|]|p]; cbn [shr_1 shr_m]; try lia; try reflexivity.
  - change (Z.pos p~1) with (2 * Z.pos p + 1).
    apply Z.div_unique with 1; lia.
  - change (Z.pos p~0) with (2 * Z.pos p).
    apply Z.div_unique with 0; lia.
Qed.

Lemma iter_shr_1_m p mrs :
  0 <= shr_m mrs ->
  shr_m (SpecFloat.iter_pos shr_1 p mrs) = shr_m mrs / 2 ^ Z.pos p.
Proof.
  revert mrs. induction p as [p IH | p IH |]; intros mrs Hm; cbn [SpecFloat.iter_pos].
  - assert (0 <= shr_m (shr_1 mrs))
      by (rewrite shr_1_m by assumption; apply Z.div_pos; lia).
    assert (0 <= shr_m (SpecFloat.iter_pos shr_1 p (shr_1 mrs)))
      by (rewrite IH by assumption; apply Z.div_pos; lia).
    rewrite !IH, shr_1_m by assumption.
    rewrite !Z.div_div by lia. f_equal.
    replace (Z.pos p~1) with (1 + Z.pos p + Z.pos p) by lia.
    rewrite !Z.pow_add_r by lia. lia.
  - assert (0 <= shr_m (SpecFloat.iter_pos shr_1 p mrs))
      by (rewrite IH by assumption; apply Z.div_pos; lia).
    rewrite !IH by assumption. rewrite Z.div_div by lia. f_equal.
    replace (Z.pos p~0) with (Z.pos p + Z.pos p) by lia.
    now rewrite Z.pow_add_r by lia.
  - rewrite shr_1_m by assumption. reflexivity.
Qed.

Lemma shr_record_of_loc_m m l : shr_m (shr_record_of_loc m l) = m.
Proof. destruct l as [|[]]; reflexivity. Qed.

(** [shr_fexp] on a non-negative mantissa: the mantissa is divided by the
    power of two that brings the exponent up to the canonical one. *)
Lemma shr_fexp_spec m e l :
  0 <= m ->
  let n := fexp prec emax (Zdigits2 m + e) - e in
  shr_m (fst (shr_fexp prec emax m e l)) = (if 0 <? n then m / 2 ^ n else m)
  /\ snd (shr_fexp prec emax m e l) = (if 0 <? n then e + n else e).
Proof.
  intros Hm n. unfold shr_fexp, shr. fold n.
  destruct n as [|p|p]; cbn [fst snd Z.ltb Z.compare];
    rewrite ?shr_record_of_loc_m; auto.
  rewrite iter_shr_1_m by (rewrite shr_record_of_loc_m; exact Hm).
  now rewrite shr_record_of_loc_m.
Qed.

Lemma round_nearest_even_bounds m l :
  m <= round_nearest_even m l <= m + 1.
Proof.
  destruct l as [|[]]; cbn [round_nearest_even]; try lia.
  destruct (Z.even m); lia.
Qed.

Lemma fexp_unfold k : fexp prec emax k = Z.max (k - 53) (-1074).
Proof. reflexivity. Qed.

(** Rounding a value below one gives a value at most one. *)
Lemma binary_round_aux_unit s m e l :
  0 <= m -> e <= 0 -> m < 2 ^ (- e) ->
  match binary_round_aux prec emax s m e l with
  | S754_zero s' => s' = s
  | S754_finite s' m' e' => s' = s /\ e' <= 0 /\ Z.pos m' <= 2 ^ (- e')
  | _ => False
  end.
Proof.
  intros Hm He Hlt. unfold binary_round_aux.
  destruct (shr_fexp_spec m e l Hm) as [Hm1 He1].
  destruct (shr_fexp prec emax m e l) as [mrs1 e1]. cbn [fst snd] in Hm1, He1.
  assert (Zdigits2 m <= - e) as Hd by (apply Zdigits2_le; lia).
  assert (0 <= shr_m mrs1 < 2 ^ (- e1) /\ e1 <= 0) as [Hb1 He1'].
  { rewrite Hm1, He1, fexp_unfold.
    destruct (Z.ltb_spec 0 (Z.max (Zdigits2 m + e - 53) (-1074) - e)) as [Hn|Hn];
      [|lia].
    split; [|lia]. split; [apply Z.div_pos; lia|].
    apply Z.div_lt_upper_bound; [lia|].
    rewrite <- Z.pow_add_r by lia.
    now replace (Z.max (Zdigits2 m + e - 53) (-1074) - e
                 + - (e + (Z.max (Zdigits2 m + e - 53) (-1074) - e)))
      with (- e) by lia. }
  clear Hm1 He1.
  pose proof (round_nearest_even_bounds (shr_m mrs1) (loc_of_shr_record mrs1))
    as Hr.
  set (m2 := round_nearest_even (shr_m mrs1) (loc_of_shr_record mrs1)) in *.
  assert (0 <= m2) as Hm2 by lia.
  assert (m2 <= 2 ^ (- e1)) as Hm2' by lia.
  destruct (shr_fexp_spec m2 e1 loc_Exact Hm2) as [Hm3 He3].
  destruct (shr_fexp prec emax m2 e1 loc_Exact) as [mrs2 e2].
  cbn [fst snd] in Hm3, He3.
  assert (Zdigits2 m2 <= - e1 + 1) as Hd2.
  { apply Zdigits2_le; [|lia]. rewrite Z.pow_add_r, Z.pow_1_r by lia. lia. }
  assert (0 <= shr_m mrs2 <= 2 ^ (- e2) /\ e2 <= 0) as [Hb2 He2'].
  { rewrite Hm3, He3, fexp_unfold.
    destruct (Z.ltb_spec 0 (Z.max (Zdigits2 m2 + e1 - 53) (-1074) - e1))
      as [Hn|Hn]; [|lia].
    split; [|lia]. split; [apply Z.div_pos; lia|].
    apply Z.div_le_upper_bound; [lia|].
    rewrite <- Z.pow_add_r by lia.
    now replace (Z.max (Zdigits2 m2 + e1 - 53) (-1074) - e1
                 + - (e1 + (Z.max (Zdigits2 m2 + e1 - 53) (-1074) - e1)))
      with (- e1) by lia. }
  destruct (shr_m mrs2) as [|p|p]; [reflexivity | | lia].
  destruct (Z.leb_spec e2 (emax - prec)) as [_|Hgt];
    [split; [reflexivity | split; lia] | unfold emax, prec in Hgt; lia].
Qed.

(** A valid binary64 number has a mantissa below [2^53]. *)
Lemma valid_finite s m e :
  valid_binary (S754_finite s m e) = true ->
  Z.pos m < 2 ^ 53 /\ -1074 <= e <= 971.
Proof.
  cbn [SpecFloat.valid_binary]. unfold bounded, canonical_mantissa.
  rewrite andb_true_iff, Z.eqb_eq, Z.leb_le, fexp_unfold.
  unfold emax, prec. intros [Hc He].
  destruct (digits2_pos_bounds m) as [_ Hhi].
  assert (2 ^ Z.pos (digits2_pos m) <= 2 ^ 53)
    by (apply Z.pow_le_mono_r; lia).
  lia.
Qed.

Lemma Prim2SF_100 : Prim2SF 100 = SF100.
Proof. vm_compute. reflexivity. Qed.
Lemma Prim2SF_1 : Prim2SF 1 = SF1.
Proof. vm_compute. reflexivity. Qed.
Lemma Prim2SF_0 : Prim2SF 0 = S754_zero false.
Proof. vm_compute. reflexivity. Qed.

Lemma compare_le_true (c : comparison) :
  match c with Gt => false | _ => true end = true <-> c <> Gt.
Proof. destruct c; split; congruence. Qed.

Lemma compare_cont_not_Gt m c :
  Pos.compare_cont Eq m c <> Gt <-> Z.pos m <= Z.pos c.
Proof.
  change (Pos.compare_cont Eq m c) with (Z.pos m ?= Z.pos c).
  rewrite Z.compare_gt_iff. lia.
Qed.

Lemma pow2_52 : 2 ^ 52 = 4503599627370496.
Proof. reflexivity. Qed.

Lemma SFunit_leb x :
  valid_binary x = true ->
  SFunit x <->
  SFleb (S754_zero false) x = true /\ SFleb x SF1 = true.
Proof.
  intros Hv. unfold SFunit, SFleb, SF1.
  destruct x as [s | [] | | s m e]; cbn [SFcompare].
  - tauto.
  - split; [intros [] | intros [? ?]; discriminate].
  - split; [intros [] | intros [? ?]; discriminate].
  - split; [intros [] | intros [? ?]; discriminate].
  - pose proof Hv as Hc. apply valid_finite in Hv. destruct Hv as [Hm He].
    destruct s.
    { split; [intros [? _]; discriminate | intros [? _]; discriminate]. }
    rewrite compare_le_true.
    destruct (Z.compare_spec e (-52)) as [-> | Hlt | Hgt].
    + rewrite compare_cont_not_Gt.
      replace (- -52) with 52 by lia. rewrite pow2_52.
      split; [intros (_ & _ & H); split; [reflexivity | lia]
             | intros [_ H]; repeat split; lia].
    + split; [intros _; split; [reflexivity | discriminate]|].
      intros _. repeat split; [lia|].
      assert (2 ^ 53 <= 2 ^ (- e)) by (apply Z.pow_le_mono_r; lia). lia.
    + split; [|intros [_ ?]; congruence].
      intros (_ & He0 & Hle). exfalso.
      assert (2 ^ (- e) <= 2 ^ 51) by (apply Z.pow_le_mono_r; lia).
      (* a number with exponent above -52 is normal *)
      cbn [SpecFloat.valid_binary] in Hc. unfold bounded, canonical_mantissa in Hc.
      rewrite andb_true_iff, Z.eqb_eq, fexp_unfold in Hc.
      destruct Hc as [Hc _].
      destruct (digits2_pos_bounds m) as [Hlo _].
      replace (Z.pos (digits2_pos m)) with 53 in Hlo by lia.
      change (53 - 1) with 52 in Hlo.
      assert (2 ^ 51 < 2 ^ 52) by (apply Z.pow_lt_mono_r; lia). lia.
Qed.

Lemma SFunit_round m e l :
  0 <= m -> e <= 0 -> m < 2 ^ (- e) ->
  SFunit (binary_round_aux prec emax false m e l).
Proof.
  intros Hm He Hlt.
  pose proof (binary_round_aux_unit false m e l Hm He Hlt) as H.
  destruct (binary_round_aux prec emax false m e l); cbn [SFunit]; auto.
Qed.

(** The quotient of two positive numbers, the first below the second. *)
Lemma SFdiv_below mx ex my ey :
  ex <= ey ->
  Z.pos mx < Z.pos my * 2 ^ (ey - ex) ->
  SFunit (SFdiv prec emax (S754_finite false mx ex) (S754_finite false my ey)).
Proof.
  intros He Hlt. cbn [SFdiv xorb]. unfold SFdiv_core_binary.
  set (e' := Z.min _ (ex - ey)).
  assert (e' <= ex - ey) as He' by (subst e'; lia).
  set (m' := match ex - ey - e' with
             | 0 => Z.pos mx
             | Z.pos _ => Z.shiftl (Z.pos mx) (ex - ey - e')
             | Z.neg _ => 0
             end).
  assert (m' = Z.pos mx * 2 ^ (ex - ey - e')) as Hm'.
  { subst m'. destruct (ex - ey - e') as [|p|p] eqn:Hs; [cbn; lia | | lia].
    apply Z.shiftl_mul_pow2. lia. }
  clearbody m' e'.
  pose proof (Z_div_mod m' (Z.pos my) eq_refl) as Hdiv.
  destruct (Z.div_eucl m' (Z.pos my)) as [q r]. destruct Hdiv as [Hq Hr].
  assert (0 < 2 ^ (ex - ey - e')) by (apply Z.pow_pos_nonneg; lia).
  assert (m' < Z.pos my * 2 ^ (- e')) as Hb.
  { replace (- e') with ((ey - ex) + (ex - ey - e')) by lia.
    rewrite Z.pow_add_r, Z.mul_assoc, Hm' by lia.
    apply Z.mul_lt_mono_pos_r; assumption. }
  assert (0 < 2 ^ (- e')) by (apply Z.pow_pos_nonneg; lia).
  apply SFunit_round; [|lia|].
  - destruct (Z_lt_ge_dec q 0) as [Hneg|]; [|lia].
    assert (Z.pos my * q <= Z.pos my * (-1))
      by (apply Z.mul_le_mono_nonneg_l; lia).
    lia.
  - destruct (Z_lt_ge_dec q (2 ^ (- e'))) as [|Hge]; [assumption|].
    assert (Z.pos my * 2 ^ (- e') <= Z.pos my * q)
      by (apply Z.mul_le_mono_nonneg_l; lia).
    lia.
Qed.

Lemma unit_score_SFunit v : unit_score v <-> SFunit (Prim2SF v).
Proof.
  unfold unit_score. rewrite !FloatAxioms.leb_spec, Prim2SF_0, Prim2SF_1. symmetry.
  apply SFunit_leb, Prim2SF_valid.
Qed.

Lemma pow2_53 : 2 ^ 53 = 9007199254740992.
Proof. reflexivity. Qed.

(** A percentage divided by 100 is in the unit interval. *)
Lemma div_100_unit f :
  (0 <=? f)%float = true -> (f <=? 100)%float = true ->
  unit_score (f / 100).
Proof.
  rewrite !FloatAxioms.leb_spec, Prim2SF_0, Prim2SF_100. intros H0 H100.
  pose proof (Prim2SF_valid f) as Hv.
  destruct (Prim2SF f) as [s | s | | s m e] eqn:Hf.
  - apply unit_score_SFunit. rewrite FloatAxioms.div_spec, Prim2SF_100, Hf. exact I.
  - destruct s; discriminate.
  - discriminate.
  - destruct s; [discriminate|].
    apply valid_finite in Hv. destruct Hv as [Hm He].
    revert H100. unfold SFleb, SF100. cbn [SFcompare].
    rewrite compare_le_true.
    destruct (Z.compare_spec e (-46)) as [-> | Hlt | Hgt]; [| |congruence].
    + rewrite compare_cont_not_Gt. intros Hle.
      destruct (Z.eq_dec (Z.pos m) (Z.pos 7036874417766400)) as [Heq | Hne].
      * injection Heq as ->.
        rewrite <- (SF2Prim_Prim2SF f), Hf. vm_compute. auto.
      * apply unit_score_SFunit. rewrite FloatAxioms.div_spec, Prim2SF_100, Hf.
        apply SFdiv_below; [lia|].
        replace (-46 - -46) with 0 by lia. lia.
    + intros _. apply unit_score_SFunit. rewrite FloatAxioms.div_spec, Prim2SF_100, Hf.
      apply SFdiv_below; [lia|].
      assert (2 ^ 1 <= 2 ^ (-46 - e)) by (apply Z.pow_le_mono_r; lia).
      rewrite pow2_53 in Hm. change (2 ^ 1) with 2 in *. nia.
Qed.

Lemma round_half_even_bounds num den k :
  0 < den -> 0 <= num <= k * den ->
  0 <= Py.round_half_even num den <= k.
Proof.
  intros Hden [Hlo Hhi]. unfold Py.round_half_even.
  pose proof (Z.div_mod num den ltac:(lia)) as Hdm.
  pose proof (Z.mod_pos_bound num den Hden) as Hr.
  assert (0 <= num / den) as Hq by (apply Z.div_pos; lia).
  assert (num / den <= k) as Hk
      by (apply Z.div_le_upper_bound; lia).
  set (q := num / den) in *. set (r := num mod den) in *.
  assert (q = k -> r = 0) as Hfull by (intros ->; lia).
  destruct (Z.compare_spec (2 * r) den); [destruct (Z.even q)| |]; lia.
Qed.

(** The doubles nearest to 0.00, 0.01, ..., 1.00 are in the unit
    interval. *)
Lemma nearest_hundredth_unit n :
  0 <= n <= 100 -> unit_score (Py.nearest_double n 100).
Proof.
  intros Hn.
  assert (forallb (fun k => let r := Py.nearest_double (Z.of_nat k) 100 in
                            (0 <=? r)%float && (r <=? 1)%float)
                  (seq 0 101) = true) as H by (vm_compute; reflexivity).
  rewrite List.forallb_forall in H. specialize (H (Z.to_nat n)).
  rewrite Z2Nat.id in H by lia.
  apply andb_true_iff, H, List.in_seq. lia.
Qed.

(** [round(q, 2)] keeps a score in the unit interval. *)
Lemma round2_unit q : unit_score q -> unit_score (Py.round2 q).
Proof.
  intros Hq. pose proof Hq as Hs. apply unit_score_SFunit in Hs.
  unfold Py.round2.
  destruct (Prim2SF q) as [s | s | | s m e]; try exact Hq.
  destruct Hs as (-> & He & Hm).
  apply nearest_hundredth_unit.
  destruct (Z.leb_spec 0 e) as [H0|Hneg].
  - replace e with 0 in * by lia. change (2 ^ (- 0)) with 1 in Hm.
    change (2 ^ 0) with 1. lia.
  - apply round_half_even_bounds; [apply Z.pow_pos_nonneg; lia | lia].
Qed.

Lemma finite_compare_not_Gt m1 e1 m2 e2 :
  match e1 ?= e2 with
  | Eq => Pos.compare_cont Eq m1 m2
  | Lt => Lt
  | Gt => Gt
  end <> Gt
  <-> e1 < e2 \/ (e1 = e2 /\ Z.pos m1 <= Z.pos m2).
Proof.
  destruct (Z.compare_spec e1 e2); [rewrite compare_cont_not_Gt| |];
    split; intros; try lia; congruence.
Qed.

(** A value at most one is at most a weight that is at least one. *)
Lemma SFleb_through_one x y :
  SFleb x SF1 = true -> SFleb SF1 y = true -> SFleb x y = true.
Proof.
  unfold SFleb, SF1.
  destruct x as [sx | sx | | sx mx ex], y as [sy | sy | | sy my ey];
    cbn [SFcompare]; try discriminate;
    try (destruct sx, sy; tauto || discriminate).
  destruct sx, sy; try tauto; try discriminate.
  rewrite !compare_le_true, !finite_compare_not_Gt. lia.
Qed.

Lemma unit_score_within_weight v w :
  unit_score v -> (1 <=? w)%float = true ->
  (0 <=? v)%float = true /\ (v <=? w)%float = true.
Proof.
  intros [H0 H1] Hw. split; [exact H0|].
  rewrite FloatAxioms.leb_spec in *. rewrite Prim2SF_1 in *.
  now apply SFleb_through_one.
Qed.

Lemma unit_score_0 : unit_score 0.
Proof. split; vm_compute; reflexivity. Qed.

(** The unit interval is kept by every call of a session of percentages. *)
Lemma unit_score_after_step settings c self :
  percent_call c ->
  unit_score (lesson_score self) ->
  unit_score (lesson_score (step settings self c)).
Proof.
  intros Hc Hu. destruct c as [data | data]; [exact Hu|]. cbn [step].
  destruct (lesson_score_after_set settings data self)
    as [-> | [-> | [(Hraw & s & f & Hv & Hs & ->) | ->]]].
  - exact Hu.
  - exact unit_score_0.
  - destruct (Hc Hraw s f Hv Hs) as [H0 H100].
    now apply round2_unit, div_100_unit.
  - apply round2_unit, div_100_unit; vm_compute; reflexivity.
Qed.

Lemma unit_score_after_run settings calls self :
  Forall percent_call calls ->
  unit_score (lesson_score self) ->
  unit_score (lesson_score (run settings calls self)).
Proof.
  intros Hcalls. revert self.
  induction Hcalls as [|c calls Hc _ IH]; intros self Hu; [exact Hu|].
  apply (IH (step settings self c)). now apply unit_score_after_step.
Qed.

Lemma grade_of_block_within_weight self v m :
  grade_of_block self v m ->
  unit_score (lesson_score self) ->
  (1 <=? weight self)%float = true ->
  (0 <=? v)%float = true /\ (v <=? m)%float = true.
Proof.
  intros [-> Hv] Hu Hw. apply unit_score_within_weight; [|exact Hw].
  destruct Hv as [-> | ->]; [exact unit_score_0 | exact Hu].
Qed.

(** C3, as the code has it: a grade event carries [max_value = weight] and a
    value that is [0] or the stored [lesson_score]; this holds for
    [publish_grade] on the state any session reaches and for every grade
    event a further set call publishes (read on the block as the call
    leaves it).  Nothing clamps the value; it is within [0, weight] in the
    sessions that keep to percentages: from a block whose [lesson_score] is
    within [0, 1] and whose [weight] is at least 1 (a new block has score 0
    and weight 1), if every raw-score set that carries a number carries one
    within [0, 100], then every grade event, of [publish_grade] on the
    state reached and of a further such set call, has [max_value] equal to
    the weight and a value that is not negative and not above it. *)
Theorem C3_grade_value_within_weight settings calls data self v m :
  let self' := run settings calls self in
  let o := scorm_set_value settings data self' in
  (In (Grade v m) (published_of (publish_grade settings self')) ->
   grade_of_block self' v m)
  /\ (In (Grade v m) (published_of o) -> grade_of_block (self_of o) v m)
  /\ (unit_score (lesson_score self) ->
      (1 <=? weight self)%float = true ->
      Forall percent_call calls ->
      percent_data data ->
      In (Grade v m) (published_of (publish_grade settings self'))
      \/ In (Grade v m) (published_of o) ->
      m = weight self
      /\ (0 <=? v)%float = true /\ (v <=? m)%float = true).
Proof.
  cbn zeta.
  assert (In (Grade v m)
            (published_of (publish_grade settings (run settings calls self))) ->
          grade_of_block (run settings calls self) v m) as Hpub.
  { rewrite publish_grade_returns. intros [Heq | []].
    now apply (graded_grade_of_block settings). }
  assert (In (Grade v m)
            (published_of (scorm_set_value settings data
                             (run settings calls self))) ->
          grade_of_block
            (self_of (scorm_set_value settings data
                        (run settings calls self))) v m) as Hset.
  { intros Hin. apply (graded_grade_of_block settings).
    now apply grade_in_set_value. }
  split; [exact Hpub|]. split; [exact Hset|].
  intros Hu Hw Hcalls Hdata Hin.
  pose proof (unit_score_after_run settings calls self Hcalls Hu) as Hu'.
  pose proof (weight_after_run settings calls self) as Hw'.
  destruct Hin as [Hin | Hin].
  - apply Hpub in Hin. split; [destruct Hin as [-> _]; exact Hw'|].
    apply (grade_of_block_within_weight _ _ _ Hin Hu'). now rewrite Hw'.
  - apply Hset in Hin.
    assert (weight (self_of (scorm_set_value settings data
                               (run settings calls self))) = weight self)
      as Hw''.
    { rewrite self_of_scorm_set_value, weight_after_branch. exact Hw'. }
    split; [destruct Hin as [-> _]; exact Hw''|].
    apply (grade_of_block_within_weight _ _ _ Hin); [|now rewrite Hw''].
    apply (unit_score_after_step settings (SetValue data) _ Hdata Hu').
Qed.

Lemma C3_grade_value_witness :
  let calls := [SetValue (Sample.set_raw "50"); GetValue Sample.get_raw] in
  let self' := run Sample.settings calls Sample.block in
  In (Grade 1 1)
    (published_of (scorm_set_value Sample.settings (Sample.set_raw "99.6")
                     self'))
  /\ 1%float = weight Sample.block
  /\ (0 <=? 1)%float = true /\ (1 <=? 1)%float = true.
Proof.
  cbn zeta.
  assert (In (Grade 1 1)
            (published_of
               (scorm_set_value Sample.settings (Sample.set_raw "99.6")
                  (run Sample.settings
                     [SetValue (Sample.set_raw "50"); GetValue Sample.get_raw]
                     Sample.block)))) as Hin.
  { vm_compute. left. reflexivity. }
  split; [exact Hin|].
  apply (proj2 (proj2 (C3_grade_value_within_weight Sample.settings
                         [SetValue (Sample.set_raw "50");
                          GetValue Sample.get_raw]
                         (Sample.set_raw "99.6") Sample.block 1 1))).
  - split; vm_compute; reflexivity.
  - vm_compute. reflexivity.
  - apply List.Forall_cons;
      [|apply List.Forall_cons; [exact I | apply List.Forall_nil]].
    intros _ ? ? [= <-] Hf. vm_compute in Hf. injection Hf as <-.
    split; vm_compute; reflexivity.
  - intros _ ? ? [= <-] Hf. vm_compute in Hf. injection Hf as <-.
    split; vm_compute; reflexivity.
  - right. exact Hin.
Defined.

(** C3, as stated, fails: from a new block (weight 1), setting the raw score
    to ["150"] publishes the value 1.5, above the weight, and setting it to
    ["-50"] publishes the negative value -0.5. *)
Lemma C3_grade_value_outside_weight :
  weight Sample.block = 1%float
  /\ published_of (scorm_set_value Sample.settings (Sample.set_raw "150")
                     Sample.block) = [Grade 1.5 1]
  /\ (1 <? 1.5)%float = true
  /\ published_of (scorm_set_value Sample.settings (Sample.set_raw "-50")
                     Sample.block) = [Grade (-0.5) 1]
  /\ (-0.5 <? 0)%float = true.
Proof. repeat split; vm_compute; reflexivity. Qed.

(** C4: with the override flag off, [publish_grade] publishes
    [(0, weight)] when [lesson_status] is ["failed"], or the version is
    SCORM_2004 and [success_status] is ["failed"] or ["unknown"], whatever
    the stored score; in every other case it publishes
    [(lesson_score, weight)].  It assigns no field. *)
Theorem C4_publish_grade_policy settings self :
  ENABLE_PUBLISH_FAILED_SCORM_SCORE settings = false ->
  (failed_or_unsuccessful self ->
   publish_grade settings self = Returned self [Grade 0 (weight self)] tt)
  /\ (~ failed_or_unsuccessful self ->
      publish_grade settings self =
        Returned self [Grade (lesson_score self) (weight self)] tt).
Proof.
  intros Hflag. rewrite publish_grade_returns. unfold graded.
  pose proof (grade_is_zeroed_true settings self Hflag) as Hz.
  destruct (grade_is_zeroed settings self); split; intros H; try reflexivity.
  - exfalso. apply H, Hz. reflexivity.
  - apply Hz in H. discriminate.
Qed.

Lemma C4_publish_grade_witness :
  let self := set_lesson_status (Some "failed")
                (set_lesson_score 0.5 Sample.block) in
  ENABLE_PUBLISH_FAILED_SCORM_SCORE Sample.settings = false
  /\ lesson_score self = 0.5%float
  /\ publish_grade Sample.settings self = Returned self [Grade 0 1] tt.
Proof.
  cbn zeta. split; [reflexivity|]. split; [reflexivity|].
  apply (proj1 (C4_publish_grade_policy Sample.settings
                  (set_lesson_status (Some "failed")
                     (set_lesson_score 0.5 Sample.block)) eq_refl)).
  left. reflexivity.
Defined.

(** C5, as the code has it: a set of [cmi.success_status] on a scored
    block stores the value as a [String] field does, with the control
    characters XML forbids removed (the value itself when it has none);
    when the stored value is ["unknown"], in particular when the value is
    ["unknown"], it first sets [lesson_score] to 0, whatever score was
    stored, and otherwise leaves the score; it then publishes the grade
    event of the block so updated (one event, followed only by the
    completion event, if any), and returns. *)
Theorem C5_success_status_set settings data self :
  name data = "cmi.success_status" ->
  has_score self = true ->
  let stored := Field.stored (value data) in
  let self1 := set_success_status stored self in
  let self2 := if Py.str_eq stored "unknown"
               then set_lesson_score 0%float self1 else self1 in
  scorm_set_value settings data self =
    Returned self2
      (published_of (publish_grade settings self2) ++ completion_events self2)
      (final_context (Some (lesson_score self2)) self2)
  /\ success_status self2 = stored
  /\ (forall s, value data = Some s -> Field.sanitize s = s ->
      success_status self2 = value data)
  /\ (stored = Some "unknown" \/ value data = Some "unknown" ->
      lesson_score self2 = 0%float
      /\ published_of (publish_grade settings self2) = [Grade 0 (weight self)])
  /\ (stored <> Some "unknown" -> lesson_score self2 = lesson_score self)
  /\ (exists v, published_of (publish_grade settings self2)
                = [Grade v (weight self)]).
Proof.
  intros Hname Hscore stored self1 self2.
  assert (published_of (publish_grade settings self2)
          = [graded settings self2]) as Hpub
      by now rewrite publish_grade_returns.
  assert (weight self2 = weight self) as Hw
      by (subst self2 self1; destruct (Py.str_eq _ _); reflexivity).
  assert (success_status self2 = stored) as Hstored
      by (subst self2 self1; destruct (Py.str_eq _ _); reflexivity).
  split; [|split; [|split; [|split; [|split]]]].
  - rewrite Hpub.
    apply (scorm_set_value_returns settings data self self2
             [graded settings self2] (Some (lesson_score self2))).
    unfold set_value_branch. rewrite Hname.
    change (Py.elem "cmi.success_status" lesson_status_keys) with false.
    change (String.eqb "cmi.success_status" "cmi.success_status") with true.
    cbv iota. rewrite set_success_status_branch_returns. cbn zeta.
    rewrite Hscore. reflexivity.
  - exact Hstored.
  - intros s Hv Hclean. rewrite Hstored. subst stored.
    rewrite Hv. cbn. now rewrite Hclean.
  - intros Hv.
    assert (stored = Some "unknown") as Hs.
    { destruct Hv as [Hv | Hv]; [exact Hv|]. subst stored. now rewrite Hv. }
    assert (lesson_score self2 = 0%float) as Hzero
        by (subst self2 self1; rewrite Hs; reflexivity).
    split; [exact Hzero|].
    rewrite Hpub. unfold graded. rewrite Hw, Hzero.
    destruct (grade_is_zeroed settings self2); reflexivity.
  - intros Hv. apply str_eq_false in Hv. subst self2 self1.
    rewrite Hv. reflexivity.
  - rewrite Hpub. unfold graded. rewrite Hw. eauto.
Qed.

Lemma C5_success_status_witness :
  let self := set_lesson_score 0.5 Sample.block in
  let data := Sample.set_key "cmi.success_status" "unknown" in
  has_score self = true
  /\ lesson_score self = 0.5%float
  /\ scorm_set_value Sample.settings data self =
       Returned (set_lesson_score 0 (set_success_status (Some "unknown") self))
                [Grade 0 1]
                {| result := "success";
                   ctx_lesson_score := Some 0%float;
                   completion_status := Some "not attempted" |}.
Proof.
  cbn zeta. split; [reflexivity|]. split; [reflexivity|].
  exact (proj1 (C5_success_status_set Sample.settings
                  (Sample.set_key "cmi.success_status" "unknown")
                  (set_lesson_score 0.5 Sample.block) eq_refl eq_refl)).
Defined.

(** C5, as stated, fails on "the value is stored": setting
    [cmi.success_status] to ["unk\x01nown"] on a scored block stores
    ["unknown"], not the value, and so zeroes a stored score of 0.5. *)
Lemma C5_control_character_is_stripped :
  let self := set_lesson_score 0.5 Sample.block in
  let data := Sample.set_key "cmi.success_status" Sample.unk_nown in
  let self' := self_of (scorm_set_value Sample.settings data self) in
  has_score self = true
  /\ value data <> Some "unknown"
  /\ success_status self' = Some "unknown"
  /\ success_status self' <> value data
  /\ lesson_score self' = 0%float.
Proof.
  cbn zeta. split; [reflexivity|]. split; [discriminate|].
  split; [vm_compute; reflexivity|]. split; [|vm_compute; reflexivity].
  vm_compute. discriminate.
Qed.

(** C6: every set call that returns (every call does, except a raw-score
    set on a scored block whose value is not a number, which raises
    [ValueError] having published nothing) answers with
    [completion_status] equal to [success_status] when the version is
    SCORM_2004 and [success_status] is not ["unknown"], and to
    [lesson_status] otherwise, both read after the update; and it emits the
    completion event 1.0, once, exactly when that status is one of
    [passed], [failed], [completed]. *)
Theorem C6_completion_after_set settings data self :
  match scorm_set_value settings data self with
  | Returned self' events ctx =>
      (version_scorm self' = SCORM_2004
       /\ success_status self' <> Some "unknown" ->
       completion_status ctx = success_status self')
      /\ (~ (version_scorm self' = SCORM_2004
             /\ success_status self' <> Some "unknown") ->
          completion_status ctx = lesson_status self')
      /\ (is_complete (completion_status ctx) ->
          filter is_completion events = [Completion 1])
      /\ (~ is_complete (completion_status ctx) ->
          filter is_completion events = [])
  | Raised e self' events =>
      e = Py.ValueError /\ self' = self /\ events = []
      /\ raw_score_unparsable data self
  end.
Proof.
  destruct (set_value_branch_cases settings data self)
    as [(self1 & ev & score & H) | [H Hraw]].
  - rewrite (scorm_set_value_returns _ _ _ _ _ _ H).
    pose proof (branch_publishes_grades_only settings data self) as Hev.
    rewrite H in Hev. cbn [published_of] in Hev.
    unfold final_context. cbn [completion_status].
    unfold is_complete. rewrite <- str_in_true.
    rewrite filter_app, Hev. cbn [app]. unfold completion_events.
    unfold get_completion_status.
    split; [|split; [|split]].
    + intros [Hv Hs]. apply scorm_version_eqb_true in Hv.
      apply str_eq_false in Hs. now rewrite Hv, Hs.
    + intros Hn.
      destruct (scorm_version_eqb (version_scorm self1) SCORM_2004) eqn:Hv;
        [|reflexivity].
      destruct (Py.str_eq (success_status self1) "unknown") eqn:Hs;
        [reflexivity|].
      exfalso. apply Hn. split.
      * now apply scorm_version_eqb_true.
      * now apply str_eq_false.
    + intros Hc. unfold complete_values. now rewrite Hc.
    + intros Hc. unfold complete_values.
      destruct (Py.str_in _ _); [now exfalso; apply Hc|reflexivity].
  - rewrite (scorm_set_value_raises _ _ _ _ _ _ H). auto.
Qed.

Lemma C6_completion_witness :
  let o := scorm_set_value Sample.settings
             (Sample.set_key "cmi.core.lesson_status" "completed")
             Sample.block in
  exists self' events ctx,
    o = Returned self' events ctx
    /\ completion_status ctx = lesson_status self'
    /\ completion_status ctx = Some "completed"
    /\ filter is_completion events = [Completion 1].
Proof.
  cbn zeta.
  pose proof (C6_completion_after_set Sample.settings
                (Sample.set_key "cmi.core.lesson_status" "completed")
                Sample.block) as H.
  destruct (scorm_set_value Sample.settings
              (Sample.set_key "cmi.core.lesson_status" "completed")
              Sample.block) as [self' events ctx | e self' events] eqn:Ho.
  - exists self', events, ctx.
    assert (self' = set_lesson_status (Some "completed") Sample.block
            /\ completion_status ctx = Some "completed") as [Hself Hctx].
    { vm_compute in Ho. injection Ho as <- _ <-. split; reflexivity. }
    destruct H as (_ & Hlesson & Hdone & _).
    split; [reflexivity|]. split; [|split; [exact Hctx|]].
    + apply Hlesson. rewrite Hself. intros [Hv _]. discriminate.
    + apply Hdone. rewrite Hctx. exists "completed". cbn. auto.
  - vm_compute in Ho. discriminate.
Defined.

(** The scenario of a [cmi.core.lesson_status] set to ["completed"] on a
    new scored block. *)
Example lesson_status_completed_scenario :
  scorm_set_value Sample.settings
    (Sample.set_key "cmi.core.lesson_status" "completed") Sample.block
  = Returned (set_lesson_status (Some "completed") Sample.block)
      [Grade (lesson_score Sample.block) (weight Sample.block); Completion 1]
      {| result := "success";
         ctx_lesson_score := Some (lesson_score Sample.block);
         completion_status := Some "completed" |}.
Proof. vm_compute. reflexivity. Qed.

(** C7, as the code has it: the status fields are not checked against the
    vocabulary, so the invariant holds of the sessions that keep to it:
    from a block whose statuses are in the SCORM vocabulary, every sequence
    of get and set calls that writes only vocabulary words to the
    lesson-status keys and to [cmi.success_status] leaves [lesson_status]
    in {not attempted, incomplete, completed, passed, failed} and
    [success_status] in {unknown, passed, failed}. *)
Theorem C7_vocabulary_preserved settings calls self :
  in_vocabulary self ->
  Forall writes_vocabulary calls ->
  in_vocabulary (run settings calls self).
Proof.
  intros Hself Hcalls. revert self Hself.
  induction Hcalls as [| c calls Hc _ IH]; intros self Hself; [exact Hself|].
  cbn. apply IH. clear IH.
  destruct c as [data | data]; [exact Hself|].
  destruct Hself as [Hl Hs]. destruct Hc as [Hcl Hcs].
  destruct (statuses_after_set settings data self) as [El Es].
  unfold in_vocabulary, step. rewrite El, Es. split.
  - destruct (Py.elem (name data) lesson_status_keys); [|exact Hl].
    now rewrite stored_lesson_status_word; apply Hcl.
  - destruct (Py.elem (name data) lesson_status_keys); [exact Hs|].
    cbn [negb andb].
    destruct (String.eqb (name data) "cmi.success_status") eqn:Hn;
      [|exact Hs].
    apply String.eqb_eq in Hn.
    now rewrite stored_success_status_word; apply Hcs.
Qed.

Lemma C7_vocabulary_witness :
  in_vocabulary
    (run Sample.settings
       [SetValue (Sample.set_key "cmi.core.lesson_status" "passed");
        GetValue Sample.get_raw;
        SetValue (Sample.set_key "cmi.success_status" "failed");
        SetValue (Sample.set_key "cmi.suspend_data" "banana");
        SetValue (Sample.set_raw "oops")]
       Sample.block).
Proof.
  apply C7_vocabulary_preserved.
  - split; reflexivity.
  - repeat constructor; cbn; try reflexivity; try discriminate.
Defined.

(** C7, as stated, fails: one set of [cmi.core.lesson_status] with the
    value ["banana"] on a new block leaves [lesson_status = "banana"], and
    one set of [cmi.success_status] with ["maybe"] leaves
    [success_status = "maybe"]. *)
Lemma C7_status_outside_vocabulary :
  let after_lesson :=
    run Sample.settings
      [SetValue (Sample.set_key "cmi.core.lesson_status" "banana")]
      Sample.block in
  let after_success :=
    run Sample.settings
      [SetValue (Sample.set_key "cmi.success_status" "maybe")]
      Sample.block in
  in_vocabulary Sample.block
  /\ lesson_status after_lesson = Some "banana"
  /\ ~ In "banana" lesson_status_vocabulary
  /\ success_status after_success = Some "maybe"
  /\ ~ In "maybe" success_status_vocabulary
  /\ ~ in_vocabulary after_lesson
  /\ ~ in_vocabulary after_success.
Proof.
  cbn zeta. split; [split; reflexivity|].
  split; [vm_compute; reflexivity|].
  split; [cbn; intuition discriminate|].
  split; [vm_compute; reflexivity|].
  split; [cbn; intuition discriminate|].
  split.
  - intros [H _]. vm_compute in H. discriminate.
  - intros [_ H]. vm_compute in H. discriminate.
Qed.

(** C8: on a scored block, a set of a raw-score key with a numeric value
    [f] returns and stores [round(f / 100, 2)] in [lesson_score], and a
    following get of a raw-score key returns the stored [lesson_score]
    times 100; for the value ["87"] the get returns 87.0. *)
Theorem C8_raw_score_round_trip settings data key self s f :
  has_score self = true ->
  Py.elem (name data) raw_score_keys = true ->
  Py.elem (name key) raw_score_keys = true ->
  value data = Some s ->
  Py.float_of_string s = Some f ->
  let self' := self_of (scorm_set_value settings data self) in
  result_of (scorm_set_value settings data self) <> None
  /\ lesson_score self' = Py.round2 (f / 100)%float
  /\ scorm_get_value key self' = PyFloat (lesson_score self' * 100)%float
  /\ (s = "87" -> scorm_get_value key self' = PyFloat 87).
Proof.
  intros Hscore Hraw Hkey Hv Hs self'.
  destruct (raw_score_key_not_status _ Hraw) as [Hls Hss].
  destruct (raw_score_key_not_status _ Hkey) as [Kls Kss].
  assert (set_value_branch settings data self =
            Returned (set_lesson_score (Py.round2 (f / 100)%float) self)
              [graded settings
                 (set_lesson_score (Py.round2 (f / 100)%float) self)]
              (Some (Py.round2 (f / 100)%float))) as Hbranch.
  { unfold set_value_branch. rewrite Hls, Hss, Hraw, Hscore. cbn [andb].
    apply set_raw_score_branch_returns.
    rewrite float_of_value_cases, Hv, Hs. reflexivity. }
  assert (scorm_get_value key self' = PyFloat (lesson_score self' * 100)%float)
    as Hget.
  { unfold scorm_get_value. now rewrite Kls, Kss, Hkey. }
  assert (lesson_score self' = Py.round2 (f / 100)%float) as Hstored.
  { subst self'. rewrite self_of_scorm_set_value, Hbranch. reflexivity. }
  split; [|split; [|split]].
  - rewrite (scorm_set_value_returns _ _ _ _ _ _ Hbranch). discriminate.
  - exact Hstored.
  - exact Hget.
  - intros ->. rewrite Hget, Hstored.
    assert (f = 87%float) as -> by (vm_compute in Hs; congruence).
    vm_compute. reflexivity.
Qed.

Lemma C8_raw_score_witness :
  let self' := self_of (scorm_set_value Sample.settings (Sample.set_raw "87")
                          Sample.block) in
  has_score Sample.block = true
  /\ lesson_score self' = Py.round2 (87 / 100)%float
  /\ scorm_get_value Sample.get_raw self' = PyFloat 87.
Proof.
  cbn zeta. split; [reflexivity|].
  pose proof (C8_raw_score_round_trip Sample.settings (Sample.set_raw "87")
                Sample.get_raw Sample.block "87" 87%float
                eq_refl eq_refl eq_refl eq_refl eq_refl) as H.
  cbn zeta in H. destruct H as (_ & Hstored & _ & Hget).
  split; [exact Hstored | exact (Hget eq_refl)].
Defined.

(** C10: on a scored block, a set of a raw-score key whose value is a
    string that [float] rejects raises [ValueError]; at the raise every
    field of the block has the value it had before the call, and no event
    (grade or completion) was published. *)
Theorem C10_unparsable_raw_score_raises settings data self s :
  has_score self = true ->
  Py.elem (name data) raw_score_keys = true ->
  value data = Some s ->
  Py.float_of_string s = None ->
  scorm_set_value settings data self = Raised Py.ValueError self [].
Proof.
  intros Hscore Hraw Hv Hs.
  destruct (raw_score_key_not_status _ Hraw) as [Hls Hss].
  apply scorm_set_value_raises.
  unfold set_value_branch. rewrite Hls, Hss, Hraw, Hscore. cbn [andb].
  apply set_raw_score_branch_raises.
  rewrite float_of_value_cases, Hv, Hs. reflexivity.
Qed.

Lemma C10_unparsable_raw_score_witness :
  Py.float_of_string "eighty" = None
  /\ scorm_set_value Sample.settings (Sample.set_raw "eighty") Sample.block
     = Raised Py.ValueError Sample.block [].
Proof.
  split; [reflexivity|].
  exact (C10_unparsable_raw_score_raises Sample.settings
           (Sample.set_raw "eighty") Sample.block "eighty"
           eq_refl eq_refl eq_refl eq_refl).
Defined.

(* ===================================================================== *)
(** ** Further properties of the runtime handlers                         *)
(* ===================================================================== *)

(** Case analysis on the branch of a set call, outside the section. *)
Ltac set_value_cases settings data self tac :=
  unfold set_value_branch;
  destruct (Py.elem (name data) lesson_status_keys) eqn:?; cbn [negb andb];
  [ rewrite (set_lesson_status_branch_returns settings); cbn zeta;
    destruct (has_score self && _) eqn:?; tac
  | destruct (String.eqb (name data) "cmi.success_status") eqn:?;
    [ rewrite (set_success_status_branch_returns settings); cbn zeta;
      destruct (has_score self) eqn:?,
        (Py.str_eq (Field.stored (value data)) "unknown") eqn:?;
      tac
    | destruct (Py.elem (name data) raw_score_keys && has_score self) eqn:?;
      [ let Hf := fresh "Hf" in
        pose proof (float_of_value_cases data self) as Hf;
        destruct (value data) as [?s|] eqn:?;
        [ destruct (Py.float_of_string s) as [?f|] eqn:?;
          [ rewrite (set_raw_score_branch_returns settings _ _ _ Hf)
          | rewrite (set_raw_score_branch_raises settings _ _ _ Hf) ]
        | rewrite (set_raw_score_branch_returns settings _ _ _ Hf) ]; tac
      | rewrite set_data_scorm_branch_returns; tac ] ] ].

(** The fields a set call never assigns. *)
Lemma settings_fields_after_set settings data self :
  let self' := self_of (scorm_set_value settings data self) in
  location self' = location self
  /\ scorm_file self' = scorm_file self
  /\ path_index_page self' = path_index_page self
  /\ version_scorm self' = version_scorm self
  /\ weight self' = weight self
  /\ has_score self' = has_score self.
Proof.
  cbn zeta. rewrite self_of_scorm_set_value.
  set_value_cases settings data self ltac:(cbn; repeat split; congruence).
Qed.

(** The free-form mapping after a set call: one entry written when the call
    takes the last branch, untouched otherwise. *)
Lemma data_scorm_after_set settings data self :
  data_scorm (self_of (scorm_set_value settings data self)) =
    if Py.elem (name data) lesson_status_keys
       || String.eqb (name data) "cmi.success_status"
       || (Py.elem (name data) raw_score_keys && has_score self)
    then data_scorm self
    else <[name data := default "" (value data)]> (data_scorm self).
Proof.
  rewrite self_of_scorm_set_value.
  set_value_cases settings data self ltac:(cbn [orb]; reflexivity).
Qed.

Lemma set_value_branch_idempotent settings data self :
  set_value_branch settings data
    (self_of (set_value_branch settings data self))
  = set_value_branch settings data self.
Proof.
  unfold set_value_branch.
  destruct (Py.elem (name data) lesson_status_keys).
  { rewrite !set_lesson_status_branch_returns. cbn zeta.
    destruct (has_score self && _) eqn:Hc; cbn; rewrite Hc; reflexivity. }
  destruct (String.eqb (name data) "cmi.success_status").
  { rewrite !set_success_status_branch_returns. cbn zeta.
    destruct (has_score self) eqn:Hs,
      (Py.str_eq (Field.stored (value data)) "unknown");
      cbn; rewrite Hs; reflexivity. }
  destruct (Py.elem (name data) raw_score_keys && has_score self) eqn:Hc.
  - pose proof (float_of_value_cases data self) as Hf.
    destruct (value data) as [s|] eqn:Hv.
    + destruct (Py.float_of_string s) as [f|] eqn:Hs.
      * rewrite (set_raw_score_branch_returns settings _ _ f Hf).
        cbn [self_of has_score set_lesson_score]. rewrite Hc.
        rewrite (set_raw_score_branch_returns settings data _ f);
          [reflexivity | now rewrite float_of_value_cases, Hv, Hs].
      * rewrite (set_raw_score_branch_raises settings _ _ _ Hf).
        cbn [self_of]. rewrite Hc. now apply set_raw_score_branch_raises.
    + rewrite (set_raw_score_branch_returns settings _ _ _ Hf).
      cbn [self_of has_score set_lesson_score]. rewrite Hc.
      rewrite (set_raw_score_branch_returns settings data _ 0%float);
        [reflexivity | now rewrite float_of_value_cases, Hv].
  - rewrite !set_data_scorm_branch_returns.
    cbn [self_of has_score set_data_scorm]. rewrite Hc.
    cbn [data_scorm set_data_scorm]. rewrite insert_insert_eq.
    reflexivity.
Qed.

(** X7: a set call repeated on the block it left gives the same outcome:
    the same fields, the same events, the same response or the same
    error. *)
Theorem scorm_set_value_idempotent settings data self :
  scorm_set_value settings data
    (self_of (scorm_set_value settings data self))
  = scorm_set_value settings data self.
Proof.
  rewrite self_of_scorm_set_value.
  pose proof (set_value_branch_idempotent settings data self) as H.
  destruct (set_value_branch settings data self) as [s1 ev a | e s1 ev] eqn:H1;
    cbn [self_of] in *.
  - now rewrite (scorm_set_value_returns _ _ _ _ _ _ H),
               (scorm_set_value_returns _ _ _ _ _ _ H1).
  - now rewrite (scorm_set_value_raises _ _ _ _ _ _ H),
               (scorm_set_value_raises _ _ _ _ _ _ H1).
Qed.

Lemma run_cons settings c calls self :
  run settings (c :: calls) self = run settings calls (step settings self c).
Proof. reflexivity. Qed.

(** X8: no sequence of get and set calls changes the fields that configure
    the block: location, content URL, entry point, version, weight and
    has_score. *)
Theorem session_keeps_settings_fields settings calls self :
  let self' := run settings calls self in
  location self' = location self
  /\ scorm_file self' = scorm_file self
  /\ path_index_page self' = path_index_page self
  /\ version_scorm self' = version_scorm self
  /\ weight self' = weight self
  /\ has_score self' = has_score self.
Proof.
  cbn zeta. revert self.
  induction calls as [| c calls IH]; intros self; [repeat split|].
  rewrite run_cons.
  destruct (IH (step settings self c)) as (H1 & H2 & H3 & H4 & H5 & H6).
  rewrite H1, H2, H3, H4, H5, H6.
  destruct c as [data | data]; [repeat split|].
  apply settings_fields_after_set.
Qed.

Lemma free_form_lookup_after_step settings c self key :
  free_form key ->
  data_scorm (step settings self c) !! key =
    match written key c with
    | Some v => Some v
    | None => data_scorm self !! key
    end.
Proof.
  intros (Hl & Hs & Hr).
  destruct c as [data | data]; [reflexivity|].
  cbn [step written]. rewrite data_scorm_after_set.
  destruct (String.eqb (name data) key) eqn:Hk.
  - apply String.eqb_eq in Hk. subst key. rewrite Hl, Hs, Hr. cbn [orb andb].
    apply lookup_insert_eq.
  - apply String.eqb_neq in Hk.
    destruct (_ || _); [reflexivity|]. now apply lookup_insert_ne.
Qed.

Lemma free_form_lookup_after_run settings calls self key :
  free_form key ->
  data_scorm (run settings calls self) !! key =
    match last_written key calls with
    | Some v => Some v
    | None => data_scorm self !! key
    end.
Proof.
  intros Hkey. revert self.
  induction calls as [| c calls IH]; intros self; [reflexivity|].
  rewrite run_cons, IH. cbn [last_written].
  destruct (last_written key calls); [reflexivity|].
  now apply free_form_lookup_after_step.
Qed.

(** X1: for a free-form key, a get after any sequence of calls returns the
    value of the last set on that key (the empty string if that set had no
    value); what the block held before when no call set the key; the empty
    string when nothing ever did. *)
Theorem free_form_last_write_wins settings calls self key :
  free_form (name key) ->
  scorm_get_value key (run settings calls self) =
    match last_written (name key) calls with
    | Some v => PyStr v
    | None => PyStr (default "" (data_scorm self !! name key))
    end.
Proof.
  intros Hkey. pose proof Hkey as (Hl & Hs & Hr).
  unfold scorm_get_value. rewrite Hl, Hs, Hr.
  rewrite (free_form_lookup_after_run settings calls self _ Hkey).
  destruct (last_written (name key) calls); reflexivity.
Qed.

Lemma free_form_last_write_witness :
  scorm_get_value (Sample.set_key "cmi.suspend_data" "")
    (run Sample.settings
       [SetValue (Sample.set_key "cmi.suspend_data" "page 3");
        SetValue (Sample.set_key "cmi.core.lesson_location" "7");
        SetValue (Sample.set_key "cmi.suspend_data" "page 4");
        GetValue (Sample.set_key "cmi.suspend_data" "");
        SetValue (Sample.set_raw "80")]
       Sample.block)
  = PyStr "page 4".
Proof.
  exact (free_form_last_write_wins Sample.settings
           [SetValue (Sample.set_key "cmi.suspend_data" "page 3");
            SetValue (Sample.set_key "cmi.core.lesson_location" "7");
            SetValue (Sample.set_key "cmi.suspend_data" "page 4");
            GetValue (Sample.set_key "cmi.suspend_data" "");
            SetValue (Sample.set_raw "80")]
           Sample.block (Sample.set_key "cmi.suspend_data" "")
           (conj eq_refl (conj eq_refl eq_refl))).
Defined.

(** X2: the status keys read back what the field stored: after a set on
    either lesson-status key, a get on either of them returns the value
    written with the characters a [String] field strips (code points 0-8,
    11, 12, 14-31) removed, [None] for a set without value; the same for
    [cmi.success_status].  A value without such characters is read back as
    it was written. *)
Theorem status_set_then_get settings data key self :
  let self' := self_of (scorm_set_value settings data self) in
  (Py.elem (name data) lesson_status_keys = true ->
   Py.elem (name key) lesson_status_keys = true ->
   scorm_get_value key self' = of_str (Field.stored (value data)))
  /\ (name data = "cmi.success_status" ->
      name key = "cmi.success_status" ->
      scorm_get_value key self' = of_str (Field.stored (value data)))
  /\ (Field.stored (value data) = value data
      <-> match value data with
          | Some s => Field.sanitize s = s
          | None => True
          end).
Proof.
  cbn zeta. destruct (statuses_after_set settings data self) as [Hl Hs].
  unfold scorm_get_value. split; [|split].
  - intros Hd Hk. rewrite Hk, Hl, Hd. reflexivity.
  - intros Hd Hk. rewrite Hk, Hs, Hd. reflexivity.
  - destruct (value data) as [s|]; cbn; [|tauto].
    split; [now intros [= ->] | now intros ->].
Qed.

Lemma status_set_then_get_witness :
  scorm_get_value (Sample.set_key "cmi.completion_status" "")
    (self_of (scorm_set_value Sample.settings
                (Sample.set_key "cmi.core.lesson_status" "incomplete")
                Sample.block))
  = PyStr "incomplete"
  /\ scorm_get_value (Sample.set_key "cmi.completion_status" "")
       (self_of (scorm_set_value Sample.settings
                   (Sample.set_key "cmi.core.lesson_status" Sample.pas_sed)
                   Sample.block))
     = PyStr "passed".
Proof.
  split.
  - exact (proj1 (status_set_then_get Sample.settings
                    (Sample.set_key "cmi.core.lesson_status" "incomplete")
                    (Sample.set_key "cmi.completion_status" "")
                    Sample.block) eq_refl eq_refl).
  - exact (proj1 (status_set_then_get Sample.settings
                    (Sample.set_key "cmi.core.lesson_status" Sample.pas_sed)
                    (Sample.set_key "cmi.completion_status" "")
                    Sample.block) eq_refl eq_refl).
Defined.

(** X4: what a set call does on an unscored block, for a request whose
    [name] is a string and whose [value] is a string or absent: it returns,
    publishes no grade event, leaves [lesson_score] as it was, and its
    response has no [lesson_score] entry; [max_score] is [None]. *)
Theorem unscored_block_never_grades settings data self :
  has_score self = false ->
  max_score self = None
  /\ exists self' events ctx,
       scorm_set_value settings data self = Returned self' events ctx
       /\ filter is_grade events = []
       /\ lesson_score self' = lesson_score self
       /\ ctx_lesson_score ctx = None.
Proof.
  intros Hscore. split; [unfold max_score; now rewrite Hscore|].
  assert (exists self',
             set_value_branch settings data self = Returned self' [] None
             /\ lesson_score self' = lesson_score self) as (self' & Hb & Hl).
  { unfold set_value_branch. rewrite Hscore, andb_false_r.
    destruct (Py.elem (name data) lesson_status_keys).
    { rewrite set_lesson_status_branch_returns, Hscore. cbn. eauto. }
    destruct (String.eqb (name data) "cmi.success_status").
    { rewrite set_success_status_branch_returns, Hscore. cbn. eauto. }
    rewrite set_data_scorm_branch_returns. eauto. }
  exists self', (completion_events self'), (final_context None self').
  rewrite (scorm_set_value_returns _ _ _ _ _ _ Hb).
  repeat split; [apply completion_events_no_grade | exact Hl].
Qed.

Lemma unscored_block_witness :
  exists self' events ctx,
    scorm_set_value Sample.settings
      (Sample.set_key "cmi.core.lesson_status" "passed")
      (set_has_score false Sample.block)
    = Returned self' events ctx
    /\ filter is_grade events = []
    /\ lesson_score self' = lesson_score (set_has_score false Sample.block)
    /\ ctx_lesson_score ctx = None.
Proof.
  exact (proj2 (unscored_block_never_grades Sample.settings
                  (Sample.set_key "cmi.core.lesson_status" "passed")
                  (set_has_score false Sample.block) eq_refl)).
Defined.

(** X3: a raw score written to an unscored block cannot be read back: the
    value goes to the free-form mapping, while a get on a raw-score key
    still returns the stored [lesson_score] times 100. *)
Theorem unscored_raw_score_is_shadowed settings data key self :
  has_score self = false ->
  Py.elem (name data) raw_score_keys = true ->
  Py.elem (name key) raw_score_keys = true ->
  let self' := self_of (scorm_set_value settings data self) in
  data_scorm self' !! name data = Some (default "" (value data))
  /\ scorm_get_value key self' = PyFloat (lesson_score self * 100)%float.
Proof.
  intros Hscore Hd Hk. cbn zeta.
  destruct (raw_score_key_not_status _ Hd) as [Dl Ds].
  destruct (raw_score_key_not_status _ Hk) as [Kl Ks].
  assert (self_of (scorm_set_value settings data self)
          = set_data_scorm
              (<[name data := default "" (value data)]> (data_scorm self)) self)
    as ->.
  { rewrite self_of_scorm_set_value. unfold set_value_branch.
    now rewrite Dl, Ds, Hd, Hscore. }
  split; [apply lookup_insert_eq|].
  unfold scorm_get_value. now rewrite Kl, Ks, Hk.
Qed.

Lemma unscored_raw_score_shadowed_witness :
  scorm_get_value Sample.get_raw
    (self_of (scorm_set_value Sample.settings (Sample.set_raw "50")
                (set_has_score false Sample.block)))
  = PyFloat 0.
Proof.
  exact (proj2 (unscored_raw_score_is_shadowed Sample.settings
                  (Sample.set_raw "50") Sample.get_raw
                  (set_has_score false Sample.block)
                  eq_refl eq_refl eq_refl)).
Defined.

(** X5: among the requests whose [name] is a string and whose [value] is a
    string or absent, [scorm_set_value] raises only for a raw-score set on a
    scored block whose value is a string that is not a number, and always
    then. *)
Theorem set_value_raises_iff settings data self :
  result_of (scorm_set_value settings data self) = None
  <-> raw_score_unparsable data self.
Proof.
  split.
  - destruct (set_value_branch_cases settings data self)
      as [(s1 & ev & a & H) | [H Hraw]]; [|intros _; exact Hraw].
    rewrite (scorm_set_value_returns _ _ _ _ _ _ H). discriminate.
  - intros (Hraw & Hscore & s & Hv & Hs).
    destruct (raw_score_key_not_status _ Hraw) as [Hl Hss].
    rewrite (scorm_set_value_raises settings data self self [] Py.ValueError);
      [reflexivity|].
    unfold set_value_branch. rewrite Hl, Hss, Hraw, Hscore. cbn [andb].
    apply set_raw_score_branch_raises.
    now rewrite float_of_value_cases, Hv, Hs.
Qed.

(** X6: in a call that returns, a grade event is published exactly when the
    response carries [lesson_score]; it is then the first event, and the
    response shows the stored score even where the published value is the
    zeroed one. *)
Theorem response_score_and_grade settings data self self' events ctx :
  scorm_set_value settings data self = Returned self' events ctx ->
  (ctx_lesson_score ctx = None /\ events = completion_events self')
  \/ (has_score self = true
      /\ ctx_lesson_score ctx = Some (lesson_score self')
      /\ exists v, (v = 0%float \/ v = lesson_score self')
                   /\ events = Grade v (weight self) :: completion_events self').
Proof.
  intros Ho.
  assert (exists ev score,
             set_value_branch settings data self = Returned self' ev score
             /\ ((score = None /\ ev = [])
                 \/ (has_score self = true
                     /\ score = Some (lesson_score self')
                     /\ ev = [graded settings self'])))
    as (ev & score & Hb & Hcases).
  { destruct (set_value_branch settings data self) as [s1 ev a | e s1 ev] eqn:Hb.
    - rewrite (scorm_set_value_returns _ _ _ _ _ _ Hb) in Ho.
      injection Ho as <- _ _. exists ev, a. split; [reflexivity|].
      revert Hb. unfold set_value_branch.
      destruct (Py.elem (name data) lesson_status_keys).
      { rewrite set_lesson_status_branch_returns. cbn zeta.
        destruct (has_score self) eqn:Hs; cbn [andb];
          [destruct (Py.str_in _ _)|]; intros [= <- <- <-]; auto. }
      destruct (String.eqb (name data) "cmi.success_status").
      { rewrite set_success_status_branch_returns. cbn zeta.
        destruct (has_score self) eqn:Hs; intros [= <- <- <-]; auto. }
      destruct (Py.elem (name data) raw_score_keys); cbn [andb];
        [destruct (has_score self) eqn:Hs|].
      + pose proof (float_of_value_cases data self) as Hf.
        destruct (value data) as [s|].
        * destruct (Py.float_of_string s) as [f|].
          -- rewrite (set_raw_score_branch_returns _ _ _ f Hf).
             intros [= <- <- <-]. auto.
          -- rewrite (set_raw_score_branch_raises _ _ _ _ Hf). discriminate.
        * rewrite (set_raw_score_branch_returns _ _ _ _ Hf).
          intros [= <- <- <-]. auto.
      + rewrite set_data_scorm_branch_returns. intros [= <- <- <-]. auto.
      + rewrite set_data_scorm_branch_returns. intros [= <- <- <-]. auto.
    - rewrite (scorm_set_value_raises _ _ _ _ _ _ Hb) in Ho. discriminate. }
  rewrite (scorm_set_value_returns _ _ _ _ _ _ Hb) in Ho.
  injection Ho as <- <-.
  assert (weight self' = weight self) as Hw.
  { pose proof (weight_after_branch settings data self) as H.
    now rewrite Hb in H. }
  destruct Hcases as [[-> ->] | (Hs & -> & ->)]; [left; auto|right].
  split; [exact Hs|]. split; [reflexivity|].
  unfold graded. rewrite Hw.
  exists (if grade_is_zeroed settings self' then 0%float else lesson_score self').
  split; [destruct (grade_is_zeroed settings self'); auto | reflexivity].
Qed.

Lemma response_score_and_grade_witness :
  let self := set_lesson_status (Some "failed") Sample.block in
  exists self' ctx,
    scorm_set_value Sample.settings (Sample.set_raw "80") self
    = Returned self' [Grade 0 1; Completion 1] ctx
    /\ ctx_lesson_score ctx = Some (lesson_score self')
    /\ lesson_score self' = Py.round2 (80 / 100)%float.
Proof.
  cbn zeta.
  destruct (scorm_set_value Sample.settings (Sample.set_raw "80")
              (set_lesson_status (Some "failed") Sample.block))
    as [self' events ctx | e self' events] eqn:Ho.
  - exists self', ctx.
    destruct (response_score_and_grade _ _ _ _ _ _ Ho)
      as [[Hnone _] | (_ & Hsome & _)].
    + vm_compute in Ho. injection Ho as _ _ <-. discriminate.
    + vm_compute in Ho. injection Ho as <- <- <-.
      repeat split.
  - vm_compute in Ho. discriminate.
Defined.

(** X9: with the override flag off, a numeric raw-score set on a scored
    SCORM_2004 block whose [success_status] is ["failed"] or ["unknown"]
    (the default) publishes the grade 0, while it stores
    [round(f / 100, 2)] and answers with that stored score. *)
Theorem raw_score_zeroed_while_unsuccessful settings data self s f :
  ENABLE_PUBLISH_FAILED_SCORM_SCORE settings = false ->
  version_scorm self = SCORM_2004 ->
  success_status self = Some "failed" \/ success_status self = Some "unknown" ->
  has_score self = true ->
  Py.elem (name data) raw_score_keys = true ->
  value data = Some s ->
  Py.float_of_string s = Some f ->
  let self' := set_lesson_score (Py.round2 (f / 100)%float) self in
  scorm_set_value settings data self =
    Returned self' (Grade 0 (weight self) :: completion_events self')
             (final_context (Some (Py.round2 (f / 100)%float)) self').
Proof.
  intros Hflag Hver Hsucc Hscore Hraw Hv Hs self'.
  destruct (raw_score_key_not_status _ Hraw) as [Hl Hss].
  assert (graded settings self' = Grade 0 (weight self)) as Hg.
  { unfold graded.
    assert (grade_is_zeroed settings self' = true) as ->; [|reflexivity].
    apply (grade_is_zeroed_true settings self' Hflag). right. auto. }
  rewrite <- Hg.
  apply (scorm_set_value_returns settings data self self'
           [graded settings self'] (Some (Py.round2 (f / 100)%float))).
  unfold set_value_branch. rewrite Hl, Hss, Hraw, Hscore. cbn [andb].
  apply set_raw_score_branch_returns.
  now rewrite float_of_value_cases, Hv, Hs.
Qed.

Lemma raw_score_zeroed_witness :
  let self := set_version_scorm SCORM_2004 Sample.block in
  published_of (scorm_set_value Sample.settings (Sample.set_raw "80") self)
  = [Grade 0 1]
  /\ lesson_score (self_of (scorm_set_value Sample.settings
                              (Sample.set_raw "80") self))
     = Py.round2 (80 / 100)%float.
Proof.
  cbn zeta.
  rewrite (raw_score_zeroed_while_unsuccessful Sample.settings
             (Sample.set_raw "80") (set_version_scorm SCORM_2004 Sample.block)
             "80" 80%float eq_refl eq_refl (or_intror eq_refl)
             eq_refl eq_refl eq_refl eq_refl).
  split; reflexivity.
Defined.

(** X10: with the override flag on, the score is never zeroed: every grade
    event of a set call carries the stored [lesson_score] and the
    weight. *)
Theorem override_publishes_stored_score settings data self v m :
  ENABLE_PUBLISH_FAILED_SCORM_SCORE settings = true ->
  In (Grade v m) (published_of (scorm_set_value settings data self)) ->
  v = lesson_score (self_of (scorm_set_value settings data self))
  /\ m = weight self.
Proof.
  intros Hflag Hin. apply grade_in_set_value in Hin.
  unfold graded, grade_is_zeroed in Hin. rewrite Hflag in Hin.
  cbn [negb andb] in Hin. injection Hin as -> ->. split; [reflexivity|].
  rewrite self_of_scorm_set_value. apply weight_after_branch.
Qed.

Lemma override_publishes_witness :
  let settings := {| MEDIA_URL := "/media/";
                     ENABLE_PUBLISH_FAILED_SCORM_SCORE := true |} in
  let self := set_lesson_status (Some "failed") Sample.block in
  In (Grade 0.5 1)
     (published_of (scorm_set_value settings (Sample.set_raw "50") self))
  /\ 0.5%float = lesson_score (self_of (scorm_set_value settings
                                          (Sample.set_raw "50") self)).
Proof.
  cbn zeta.
  assert (In (Grade 0.5 1)
            (published_of
               (scorm_set_value
                  {| MEDIA_URL := "/media/";
                     ENABLE_PUBLISH_FAILED_SCORM_SCORE := true |}
                  (Sample.set_raw "50")
                  (set_lesson_status (Some "failed") Sample.block)))) as Hin.
  { vm_compute. left. reflexivity. }
  split; [exact Hin|].
  exact (proj1 (override_publishes_stored_score
                  {| MEDIA_URL := "/media/";
                     ENABLE_PUBLISH_FAILED_SCORM_SCORE := true |}
                  (Sample.set_raw "50")
                  (set_lesson_status (Some "failed") Sample.block)
                  0.5 1 eq_refl Hin)).
Defined.


(* ===================================================================== *)
(** ** Further properties of the manifest reader                          *)
(* ===================================================================== *)

Lemma append_empty_r a b : a +:+ b = "" -> b = "".
Proof. destruct a; [auto | discriminate]. Qed.

Lemma path_join_not_empty a b : b <> "" -> Py.path_join a b <> "".
Proof.
  intros Hb. unfold Py.path_join.
  destruct (Py.starts_with_slash b); [exact Hb|].
  destruct (_ || _); intros H; apply append_empty_r in H; [auto|].
  discriminate.
Qed.

Lemma scorm_file_url_not_empty settings self :
  scorm_file_url settings self <> "".
Proof.
  apply path_join_not_empty. intros H.
  apply append_empty_r in H. discriminate.
Qed.

Lemma sanitize_app a b :
  Field.sanitize (a +:+ b) = Field.sanitize a +:+ Field.sanitize b.
Proof.
  induction a as [|c a IH]; [reflexivity|].
  change (String c a +:+ b) with (String c (a +:+ b)).
  cbn [Field.sanitize]. destruct (Field.forbidden c); [exact IH|].
  now rewrite IH.
Qed.

Lemma sanitize_slash_not_empty a b : Field.sanitize (a +:+ "/" +:+ b) <> "".
Proof.
  rewrite sanitize_app. intros H. apply append_empty_r in H.
  rewrite sanitize_app in H. discriminate.
Qed.

(** The stored content URL keeps the slash after the organisation. *)
Lemma stored_scorm_file_url_not_empty settings self :
  Field.sanitize (scorm_file_url settings self) <> "".
Proof.
  unfold scorm_file_url, Py.path_join.
  destruct (Py.starts_with_slash _); [apply sanitize_slash_not_empty|].
  destruct (_ || _); rewrite sanitize_app; intros H;
    apply append_empty_r in H; [|rewrite sanitize_app in H;
                                  apply append_empty_r in H];
    now apply sanitize_slash_not_empty in H.
Qed.

(** X11: when [set_fields_xblock] returns, the content URL is the one of
    the entry point just detected, as a [String] field stores it (the URL
    itself when it has none of the characters the field strips), and is
    never empty, so the student context shows it; the learner's state, the
    weight, [has_score] and the location are untouched and nothing is
    published. *)
Theorem set_fields_xblock_returns settings file self self' events :
  set_fields_xblock settings file self = Returned self' events tt ->
  let url := scorm_file_url settings self' in
  events = []
  /\ scorm_file self' = Some (Field.sanitize url)
  /\ (Field.sanitize url = url -> scorm_file self' = Some url)
  /\ scorm_file_path (get_context_student self') = Field.sanitize url
  /\ Field.sanitize url <> ""
  /\ location self' = location self
  /\ lesson_status self' = lesson_status self
  /\ success_status self' = success_status self
  /\ lesson_score self' = lesson_score self
  /\ data_scorm self' = data_scorm self
  /\ weight self' = weight self
  /\ has_score self' = has_score self.
Proof.
  intros Ho. cbn zeta.
  assert (events = []
          /\ scorm_file self'
             = Some (Field.sanitize (scorm_file_url settings self'))
          /\ location self' = location self
          /\ lesson_status self' = lesson_status self
          /\ success_status self' = success_status self
          /\ lesson_score self' = lesson_score self
          /\ data_scorm self' = data_scorm self
          /\ weight self' = weight self
          /\ has_score self' = has_score self) as H.
  { destruct file as [| why | start_ns root].
    - rewrite set_fields_xblock_no_file in Ho. cbn zeta in Ho.
      injection Ho as <- <-. repeat split.
    - discriminate.
    - rewrite set_fields_xblock_document in Ho. cbn zeta in Ho.
      destruct (find_schemaversion _ root) as [sv|];
        [destruct (ET.text sv) as [t|]; [|discriminate]|];
        injection Ho as <- <-; repeat split. }
  destruct H as (H1 & H2 & H3 & H4 & H5 & H6 & H7 & H8 & H9).
  pose proof (stored_scorm_file_url_not_empty settings self') as Hne.
  split; [exact H1|]. split; [exact H2|].
  split; [intros E; now rewrite H2, E|].
  split; [|repeat split; auto].
  unfold get_context_student. cbn [scorm_file_path]. rewrite H2.
  cbn [truthy Py.str].
  destruct (String.eqb_spec
              (Field.sanitize (scorm_file_url settings self')) "") as [E|_];
    [contradiction | reflexivity].
Qed.

Lemma set_fields_xblock_returns_witness :
  let o := set_fields_xblock Sample.settings
             (Sample.manifest_ns "start.html" "1.2") Sample.block in
  scorm_file_path (get_context_student (self_of o))
  = "/media/scormxblockmedia/edX/Demo/scorm1/start.html".
Proof.
  cbn zeta.
  destruct (set_fields_xblock Sample.settings
              (Sample.manifest_ns "start.html" "1.2") Sample.block)
    as [self' events [] | e self' events] eqn:Ho.
  - destruct (set_fields_xblock_returns _ _ _ _ _ Ho) as (_ & _ & _ & H & _).
    cbn [self_of]. rewrite H.
    vm_compute in Ho. injection Ho as <- _. reflexivity.
  - vm_compute in Ho. discriminate.
Defined.

(** X12: [set_fields_xblock] raises in two cases only: [ET.parse] fails on
    the manifest ([ParseError] for a document that is not well-formed,
    [LookupError] for an encoding the parser does not know, [ValueError]
    for a multi-byte encoding it does not support; none of them is an
    [IOError]), or the manifest has a schemaversion element without text
    ([TypeError]).  The block is then left half-updated: the entry point is
    already overwritten (by the default, or by the resource's href as the
    field stores it), while the version and the content URL keep their old
    values. *)
Theorem set_fields_xblock_raises settings file self e self' events :
  set_fields_xblock settings file self = Raised e self' events ->
  events = []
  /\ version_scorm self' = version_scorm self
  /\ scorm_file self' = scorm_file self
  /\ ((exists why,
          file = ET.Unparsable why /\ e = ET.raised_by why
          /\ path_index_page self' = Some "index.html")
      \/ (exists start_ns root sv,
             file = ET.Document start_ns root
             /\ find_schemaversion (default_namespace start_ns) root = Some sv
             /\ ET.text sv = None
             /\ e = Py.TypeError
             /\ path_index_page self' =
                  match find_resource (default_namespace start_ns) root with
                  | Some r => Field.stored (ET.get r "href")
                  | None => Some "index.html"
                  end)).
Proof.
  intros Ho. destruct file as [| why | start_ns root].
  - discriminate.
  - injection Ho as <- <- <-. repeat split. left. exists why. repeat split.
  - rewrite set_fields_xblock_document in Ho. cbn zeta in Ho.
    destruct (find_schemaversion _ root) as [sv|] eqn:Hsv; [|discriminate].
    destruct (ET.text sv) as [t|] eqn:Ht; [discriminate|].
    injection Ho as <- <- <-. repeat split. right.
    exists start_ns, root, sv. repeat split; assumption.
Qed.

Lemma set_fields_xblock_raises_witness :
  let self := set_version_scorm SCORM_2004 Sample.block in
  let o := set_fields_xblock Sample.settings
             (Sample.manifest [("href", "start.html")] None) self in
  o = Raised Py.TypeError (set_path_index_page (Some "start.html") self) []
  /\ version_scorm (self_of o) = SCORM_2004
  /\ scorm_file (self_of o) = None.
Proof.
  cbn zeta.
  destruct (set_fields_xblock Sample.settings
              (Sample.manifest [("href", "start.html")] None)
              (set_version_scorm SCORM_2004 Sample.block))
    as [self' events u | e self' events] eqn:Ho.
  - vm_compute in Ho. discriminate.
  - destruct (set_fields_xblock_raises _ _ _ _ _ _ Ho) as (-> & Hv & Hf & _).
    cbn [self_of]. rewrite Hv, Hf.
    vm_compute in Ho. injection Ho as <- <-. repeat split.
Defined.

(** The three ways [ET.parse] fails on a manifest, each with the exception
    that leaves [set_fields_xblock]; the entry point is the default by
    then. *)
Lemma set_fields_xblock_unparsable settings why self :
  set_fields_xblock settings (ET.Unparsable why) self
  = Raised (ET.raised_by why)
      (set_path_index_page (Some "index.html") self) [].
Proof. reflexivity. Qed.

(** X13: for a manifest that parses and whose schemaversion element has a
    text, the call returns and the version follows the text alone: SCORM_12
    for ["1.2"], and for every text made of ['1'], one character other than
    a newline, ['2'] and at most one final newline; SCORM_2004 for every
    other text. *)
Theorem schemaversion_text_decides_version settings start_ns root self sv t :
  find_schemaversion (default_namespace start_ns) root = Some sv ->
  ET.text sv = Some t ->
  let o := set_fields_xblock settings (ET.Document start_ns root) self in
  result_of o = Some tt
  /\ (t = "1.2" -> version_scorm (self_of o) = SCORM_12)
  /\ (matches_1_any_2 t -> version_scorm (self_of o) = SCORM_12)
  /\ (~ matches_1_any_2 t -> version_scorm (self_of o) = SCORM_2004).
Proof.
  intros Hsv Ht.
  destruct (version_of_document settings start_ns root self sv t Hsv Ht)
    as (H1 & H2 & H3 & H4).
  cbn zeta. auto.
Qed.

Lemma schemaversion_text_witness :
  let root :=
    ET.Elem "manifest" [] None
      [ET.Elem "metadata" [] None
         [ET.Elem "schemaversion" [] (Some "CAM 1.3") []]] in
  let o := set_fields_xblock Sample.settings (ET.Document [] root)
             Sample.block in
  ~ matches_1_any_2 "CAM 1.3"
  /\ version_scorm (self_of o) = SCORM_2004.
Proof.
  cbn zeta.
  assert (~ matches_1_any_2 "CAM 1.3") as Hno
      by (intros (c & _ & [H | H]); discriminate).
  split; [exact Hno|].
  exact (proj2 (proj2 (proj2
           (schemaversion_text_decides_version Sample.settings []
              (ET.Elem "manifest" [] None
                 [ET.Elem "metadata" [] None
                    [ET.Elem "schemaversion" [] (Some "CAM 1.3") []]])
              Sample.block
              (ET.Elem "schemaversion" [] (Some "CAM 1.3") []) "CAM 1.3"
              eq_refl eq_refl))) Hno).
Defined.


(* ===================================================================== *)
(** ** Storage paths                                                      *)
(* ===================================================================== *)

Lemma append_cons c (a b : string) : String c a +:+ b = String c (a +:+ b).
Proof. reflexivity. Qed.

Lemma append_empty_l a b : a +:+ b = "" -> a = "".
Proof. destruct a; [auto | discriminate]. Qed.

Lemma path_join_keeps_left a b : a <> "" -> Py.path_join a b <> "".
Proof.
  intros Ha. unfold Py.path_join.
  destruct (Py.starts_with_slash b) eqn:Hb.
  - destruct b; discriminate.
  - destruct (_ || _); intros H; now apply append_empty_l in H.
Qed.

Lemma local_storage_path_not_empty MEDIA_ROOT self :
  local_storage_path MEDIA_ROOT self <> "".
Proof.
  unfold local_storage_path, Posix.join. cbn [fold_left].
  do 3 apply path_join_keeps_left.
  unfold SCORM_ROOT. now apply path_join_not_empty.
Qed.

Lemma prefix_append old rest : String.prefix old (old +:+ rest) = true.
Proof.
  induction old as [|c old IH]; [now destruct rest|].
  rewrite append_cons. cbn [String.prefix].
  destruct (ascii_dec c c); [exact IH | contradiction].
Qed.

Lemma prefix_true old s :
  String.prefix old s = true -> exists b, s = old +:+ b.
Proof.
  revert s. induction old as [|c old IH]; intros s H; [now exists s|].
  destruct s as [|d s]; [discriminate|]. cbn [String.prefix] in H.
  destruct (ascii_dec c d) as [<-|]; [|discriminate].
  destruct (IH s H) as [b ->]. now exists b.
Qed.

Lemma scan_skip old new a rest :
  Posix.scan old new (String.length a) (a +:+ rest)
  = Posix.scan old new 0 rest.
Proof.
  induction a as [|c a IH]; [reflexivity|].
  rewrite append_cons. exact IH.
Qed.

Lemma scan_without_occurrence old new s :
  ~ Posix.occurs old s -> Posix.scan old new 0 s = s.
Proof.
  induction s as [|c s IH]; intros Hno; [reflexivity|].
  cbn [Posix.scan].
  destruct (String.prefix old (String c s)) eqn:Hp.
  - exfalso. apply Hno. destruct (prefix_true _ _ Hp) as [b Hb].
    exists "", b. exact Hb.
  - rewrite IH; [reflexivity|]. intros (a & b & ->). apply Hno.
    now exists (String c a), b.
Qed.

Lemma replace_prefix old rest :
  old <> "" -> ~ Posix.occurs old rest ->
  Posix.replace (old +:+ rest) old "" = rest.
Proof.
  intros Hold Hno. unfold Posix.replace.
  destruct (String.eqb_spec old "") as [E|_]; [contradiction|].
  destruct old as [|c old]; [contradiction|].
  rewrite append_cons. cbn [Posix.scan]. rewrite <- append_cons. rewrite (prefix_append (String c old) rest).
  cbn [String.length]. rewrite Nat.sub_succ, Nat.sub_0_r, scan_skip.
  now apply scan_without_occurrence.
Qed.

(** X15: a local path under the unpack directory goes to the same relative
    path under the storage prefix, provided the directory's own path does
    not occur again inside the relative part (every occurrence is cut
    out); a path in which the directory does not occur at all is appended
    to the prefix whole. *)
Theorem get_remote_path_of_local MEDIA_ROOT self rest :
  ~ Posix.occurs (local_storage_path MEDIA_ROOT self) rest ->
  get_remote_path MEDIA_ROOT self (local_storage_path MEDIA_ROOT self +:+ rest)
  = _file_storage_path self +:+ rest
  /\ get_remote_path MEDIA_ROOT self rest = _file_storage_path self +:+ rest.
Proof.
  intros Hno. unfold get_remote_path. split.
  - rewrite replace_prefix; [reflexivity | | exact Hno].
    apply local_storage_path_not_empty.
  - unfold Posix.replace.
    destruct (String.eqb_spec (local_storage_path MEDIA_ROOT self) "")
      as [E|_]; [now apply local_storage_path_not_empty in E|].
    now rewrite scan_without_occurrence.
Qed.

Lemma occurs_occursb old s : Posix.occurs old s -> Posix.occursb old s = true.
Proof.
  intros (a & b & ->). induction a as [|c a IH].
  - change ("" +:+ old +:+ b) with (old +:+ b).
    pose proof (prefix_append old b) as Hp.
    destruct (old +:+ b); cbn [Posix.occursb]; rewrite Hp; reflexivity.
  - rewrite append_cons. cbn [Posix.occursb]. rewrite IH.
    apply orb_true_r.
Qed.

Lemma get_remote_path_witness :
  let self := Sample.block in
  local_storage_path "/edx/var/media" self
  = "/edx/var/media/scormxblockmedia/edX/Demo/scorm1"
  /\ get_remote_path "/edx/var/media" self
       "/edx/var/media/scormxblockmedia/edX/Demo/scorm1/js/api.js"
     = "scormxblockmedia/edX/Demo/scorm1/js/api.js".
Proof.
  cbn zeta. split; [reflexivity|].
  refine (proj1 (get_remote_path_of_local "/edx/var/media" Sample.block
                   "/js/api.js" _)).
  intros H. apply occurs_occursb in H. vm_compute in H. discriminate.
Defined.

Lemma append_assoc (a b c : string) : (a +:+ b) +:+ c = a +:+ (b +:+ c).
Proof.
  induction a as [|x a IH]; [reflexivity|].
  rewrite !append_cons. now rewrite IH.
Qed.

Lemma list_ascii_of_append a b :
  list_ascii_of_string (a +:+ b)
  = (list_ascii_of_string a ++ list_ascii_of_string b)%list.
Proof.
  induction a as [|x a IH]; [reflexivity|].
  rewrite append_cons. cbn. now rewrite IH.
Qed.

Lemma ends_with_slash_append a b :
  b <> "" -> Py.ends_with_slash (a +:+ b) = Py.ends_with_slash b.
Proof.
  intros Hb. unfold Py.ends_with_slash.
  rewrite list_ascii_of_append, rev_app_distr.
  destruct b as [|c b]; [contradiction|].
  destruct (rev (list_ascii_of_string (String c b))) as [|d r] eqn:Hr;
    [|reflexivity].
  apply (f_equal (@length ascii)) in Hr. rewrite length_rev in Hr.
  discriminate.
Qed.

Lemma path_join_plain a b :
  a <> "" -> Py.ends_with_slash a = false -> Py.starts_with_slash b = false ->
  Py.path_join a b = a +:+ "/" +:+ b.
Proof.
  intros Ha He Hs. unfold Py.path_join. rewrite Hs, He.
  destruct (String.eqb_spec a "") as [E|_]; [contradiction|reflexivity].
Qed.

(** X16: with a media root that does not end in a slash, and an organisation
    and a course that are non-empty and neither start nor end with a slash
    (a block id that does not start with one), the unpack directory is the
    storage prefix under the media root. *)
Theorem local_storage_path_is_prefix_under_root MEDIA_ROOT self :
  MEDIA_ROOT <> "" ->
  Py.ends_with_slash MEDIA_ROOT = false ->
  org (location self) <> "" ->
  Py.starts_with_slash (org (location self)) = false ->
  Py.ends_with_slash (org (location self)) = false ->
  course (location self) <> "" ->
  Py.starts_with_slash (course (location self)) = false ->
  Py.ends_with_slash (course (location self)) = false ->
  Py.starts_with_slash (block_id (location self)) = false ->
  local_storage_path MEDIA_ROOT self
  = MEDIA_ROOT +:+ "/" +:+ _file_storage_path self.
Proof.
  intros HM HMe Ho Hos Hoe Hc Hcs Hce Hbs.
  unfold local_storage_path, _file_storage_path, Posix.join, SCORM_ROOT.
  cbn [fold_left].
  set (o := org (location self)) in *.
  set (c := course (location self)) in *.
  set (b := block_id (location self)) in *.
  assert (forall x y : string, x <> "" -> x +:+ y <> "") as Hne.
  { intros x y Hx H. now apply append_empty_l in H. }
  rewrite (path_join_plain MEDIA_ROOT "scormxblockmedia" HM HMe eq_refl).
  rewrite (path_join_plain _ o); [| now apply Hne | | exact Hos].
  2:{ rewrite ends_with_slash_append; [reflexivity | discriminate]. }
  rewrite (path_join_plain _ c); [| now apply Hne, Hne | | exact Hcs].
  2:{ rewrite ends_with_slash_append; [|discriminate].
      rewrite (ends_with_slash_append "/" o Ho). exact Hoe. }
  rewrite (path_join_plain _ b); [| now apply Hne, Hne, Hne | | exact Hbs].
  2:{ rewrite ends_with_slash_append; [|discriminate].
      rewrite (ends_with_slash_append "/" c Hc). exact Hce. }
  rewrite !append_assoc. reflexivity.
Qed.

Lemma local_storage_path_witness :
  local_storage_path "/edx/var/media" Sample.block
  = "/edx/var/media" +:+ "/" +:+ _file_storage_path Sample.block.
Proof.
  apply local_storage_path_is_prefix_under_root;
    first [discriminate | reflexivity].
Defined.


(* ===================================================================== *)
(** ** The fingerprint of an upload                                       *)
(* ===================================================================== *)

Section Sha1Facts.

Variable hash : Type.
Variable sha1 : hash.
Variable update : hash -> list Byte.byte -> hash.
Variable hexdigest : hash -> string.

(** Hashing is streaming: feeding two blocks is feeding their
    concatenation. *)
Hypothesis update_app :
  forall h a b, update (update h a) b = update h (a ++ b)%list.

Lemma unread_after_read n fd :
  Upload.unread (snd (Upload.read n fd)) = skipn n (Upload.unread fd).
Proof.
  unfold Upload.unread, Upload.read. cbn [snd Upload.position Upload.content].
  rewrite length_firstn, Nat.add_comm, <- skipn_skipn.
  set (rest := skipn (Upload.position fd) (Upload.content fd)).
  destruct (Nat.le_ge_cases n (length rest)) as [H | H].
  - now rewrite Nat.min_l.
  - rewrite Nat.min_r by exact H.
    now rewrite !skipn_all2 by lia.
Qed.

Lemma read_blocks_all fuel h fd :
  (length (Upload.unread fd) < fuel)%nat ->
  exists fd',
    Upload.read_blocks hash update fuel h fd
    = Some (match Upload.unread fd with [] => h | _ :: _ => update h (Upload.unread fd) end,
            fd')
    /\ Upload.content fd' = Upload.content fd.
Proof.
  revert h fd. induction fuel as [|fuel IH]; intros h fd Hfuel; [lia|].
  cbn [Upload.read_blocks].
  pose proof (unread_after_read Upload.block_size fd) as Hrest.
  destruct (Upload.read Upload.block_size fd) as [block fd1] eqn:Hread.
  assert (block = firstn Upload.block_size (Upload.unread fd)
          /\ Upload.content fd1 = Upload.content fd) as [Hblock Hcontent].
  { unfold Upload.read in Hread. injection Hread as <- <-. split; reflexivity. }
  cbn [snd] in Hrest.
  destruct block as [|b block].
  - exists fd1. split; [|exact Hcontent].
    destruct (Upload.unread fd) as [|x rest]; [reflexivity|]. discriminate.
  - assert (length (Upload.unread fd1) < fuel)%nat as Hless.
    { rewrite Hrest, length_skipn.
      destruct (Upload.unread fd) as [|x rest]; [discriminate|].
      cbn [length] in *. unfold Upload.block_size. lia. }
    destruct (IH (update h (b :: block)) fd1 Hless) as (fd' & Hloop & Hc).
    exists fd'. split; [|congruence].
    rewrite Hloop. f_equal. f_equal.
    pose proof (firstn_skipn Upload.block_size (Upload.unread fd)) as Hsplit.
    rewrite <- Hblock, <- Hrest in Hsplit.
    destruct (Upload.unread fd1) as [|y rest1].
    + rewrite app_nil_r in Hsplit. rewrite <- Hsplit. reflexivity.
    + rewrite update_app, Hsplit.
      destruct (Upload.unread fd); [discriminate | reflexivity].
Qed.

(** X17: [get_sha1] hashes the bytes from the read cursor to the end of the
    file (the whole file when the cursor is at its start), whatever their
    number, exactly as hashing them in one piece would; it leaves the
    bytes as they are and the cursor at the start. *)
Theorem get_sha1_digest fuel fd :
  (length (Upload.content fd) < fuel)%nat ->
  Upload.get_sha1 hash sha1 update hexdigest fuel fd
  = Some (hexdigest
            (match Upload.unread fd with
             | [] => sha1
             | _ :: _ => update sha1 (Upload.unread fd)
             end),
          {| Upload.content := Upload.content fd; Upload.position := 0 |}).
Proof.
  intros Hfuel. unfold Upload.get_sha1.
  destruct (read_blocks_all fuel sha1 fd) as (fd' & -> & Hc).
  { unfold Upload.unread. rewrite length_skipn. lia. }
  unfold Upload.seek, Upload.unread. now rewrite Hc.
Qed.

End Sha1Facts.

Lemma get_sha1_witness :
  let fd := {| Upload.content := [Byte.x61; Byte.x62; Byte.x63; Byte.x64];
               Upload.position := 1 |} in
  Upload.get_sha1 (list Byte.byte) [] (@app Byte.byte) string_of_list_byte
    5 fd
  = Some ("bcd",
          {| Upload.content := [Byte.x61; Byte.x62; Byte.x63; Byte.x64];
             Upload.position := 0 |}).
Proof.
  cbn zeta.
  exact (get_sha1_digest (list Byte.byte) [] (@app Byte.byte)
           string_of_list_byte (fun h a b => eq_sym (app_assoc h a b)) 5
           {| Upload.content := [Byte.x61; Byte.x62; Byte.x63; Byte.x64];
              Upload.position := 1 |}
           ltac:(cbn; lia)).
Defined.


(* ===================================================================== *)
(** ** Cleaning the remote store                                          *)
(* ===================================================================== *)

Lemma listing_induction (P : Store.listing -> Prop) :
  (forall files dirs,
      Forall (fun d => P (snd d)) dirs -> P (Store.Dir files dirs)) ->
  forall here, P here.
Proof.
  intros H. fix IH 1. intros [files dirs]. apply H.
  induction dirs as [|[d sub] dirs IHdirs]; constructor;
    [apply IH | exact IHdirs].
Qed.

(** X18: [_delete_existing_files] asks the store to delete exactly the files
    found under the path, at any depth, each under its full
    slash-separated path, and as many deletes as there are files; the
    directories themselves are not deleted. *)
Theorem delete_existing_files_covers here :
  forall path,
    (forall p,
        In p (Store._delete_existing_files path here) <->
        exists under file,
          Store.holds here under file
          /\ p = fold_left Store.slash (under ++ [file])%list path)
    /\ length (Store._delete_existing_files path here)
       = Store.count_files here.
Proof.
  induction here as [files dirs IH] using listing_induction.
  intros path. rewrite List.Forall_forall in IH. split.
  - intros p. cbn [Store._delete_existing_files].
    rewrite in_app_iff, in_map_iff, in_flat_map. split.
    + intros [(file & <- & Hin) | ([d sub] & Hin & Hp)].
      * exists [], file. split; [now constructor | reflexivity].
      * apply (IH _ Hin) in Hp. destruct Hp as (under & file & Hh & ->).
        exists (d :: under), file. split; [|reflexivity].
        now apply Store.holds_below with sub.
    + intros (under & file & Hh & ->).
      inversion Hh as [fs ds f Hin | fs ds d sub under' f Hin Hsub]; subst.
      * left. exists file. split; [reflexivity | exact Hin].
      * right. exists (d, sub). split; [exact Hin|].
        apply (IH _ Hin). exists under', file. split; [exact Hsub|reflexivity].
  - cbn [Store._delete_existing_files Store.count_files].
    rewrite length_app, length_map. f_equal.
    clear files. induction dirs as [|[d sub] dirs IHd]; [reflexivity|].
    cbn [flat_map map list_sum]. rewrite length_app.
    rewrite IHd by (intros x Hx; apply IH; now right).
    pose proof (proj2 (IH (d, sub) (or_introl eq_refl) (Store.slash path d)))
      as Hsub.
    cbn [fst snd] in *. rewrite Hsub. reflexivity.
Qed.
